(** * Stiebel Eltron ISG: register decoding and the polling coordinators

    A shallow embedding of [custom_components/stiebel_eltron_isg/__init__.py]
    (the base coordinator) and [wpm_coordinator.py] (the WPM coordinator),
    with the parts of pymodbus and of Home Assistant's update coordinator
    they rest on, followed by the properties of the register layouts, of the
    poll cycle and of the write path.

    Python integers are [Z]; Python floats are the kernel's binary64 floats,
    so that [value * 0.1] and [int(value * 10)] evaluate to the very words
    the interpreter computes.  A Python dictionary is a [gmap] over its
    string keys.  Methods are written in a state-and-exception monad whose
    state holds [self] and the two mutable locals of every reader, the
    [result] dictionary and the payload [decoder]. *)

From Stdlib Require Import ZArith QArith Qabs Floats.
From stdpp Require Import gmap strings pretty list.

#[local] Set Warnings "-inexact-float".
#[local] Open Scope Z_scope.

(** ** Python values *)

Inductive number : Type :=
  | NInt (z : Z)
  | NFloat (f : float).

Inductive pyval : Type :=
  | PyNone
  | PyBool (b : bool)
  | PyInt (z : Z)
  | PyFloat (f : float)
  | PyStr (s : string)
  | PyList (l : list Z).

Definition pyval_of_number (n : number) : pyval :=
  match n with
  | NInt z => PyInt z
  | NFloat f => PyFloat f
  end.

Abbreviation dict := (gmap string pyval).

(** What the data model calls a decoded value: a boolean, an integer, a
    float (or the absent value), or a string.  A list is not one. *)
Definition scalar (v : pyval) : bool :=
  match v with
  | PyList _ => false
  | _ => true
  end.

(** [{**a, **b}]: the keys of [b] win. *)
Definition dict_merge (a b : dict) : dict := b ∪ a.

Inductive exn : Type :=
  | KeyError (k : string)
  | TypeError
  | ValueError
  | OverflowError
  | StructError
  | UpdateFailed.

Inductive res (A : Type) : Type :=
  | Ok (a : A)
  | Raise (e : exn).
Arguments Ok {A} a.
Arguments Raise {A} e.

(** ** Floats *)

(** [float(z)], exact for the 16-bit words and small constants used here. *)
Definition float_of_Z (z : Z) : float :=
  if 0 <=? z then PrimFloat.of_uint63 (Uint63.of_Z z)
  else PrimFloat.opp (PrimFloat.of_uint63 (Uint63.of_Z (- z))).

(** The rational a finite float stands for. *)
Definition Q_of_float (f : float) : option Q :=
  match Prim2SF f with
  | S754_zero _ => Some 0%Q
  | S754_finite s m e =>
      let n := if s then Z.neg m else Z.pos m in
      Some match e with
           | Z0 => inject_Z n
           | Z.pos p => inject_Z (n * 2 ^ Z.pos p)
           | Z.neg p => Qmake n (2 ^ p)%positive
           end
  | S754_infinity _ | S754_nan => None
  end.

(** [int(f)] truncates towards zero; it raises on infinities and NaN. *)
Definition int_of_float (f : float) : res Z :=
  match Prim2SF f with
  | S754_infinity _ => Raise OverflowError
  | S754_nan => Raise ValueError
  | _ => match Q_of_float f with
         | Some q => Ok (Z.quot (Qnum q) (Z.pos (Qden q)))
         | None => Raise ValueError
         end
  end.

(** ** The method monad: state and exceptions *)

Definition M (S A : Type) : Type := S → res A * S.

#[global] Instance M_ret {S} : MRet (M S) := λ A a s, (Ok a, s).
#[global] Instance M_bind {S} : MBind (M S) := λ A B f m s,
  match m s with
  | (Ok a, s') => f a s'
  | (Raise e, s') => (Raise e, s')
  end.

Definition raise {S A} (e : exn) : M S A := λ s, (Raise e, s).
Definition get {S} : M S S := λ s, (Ok s, s).
Definition modify {S} (f : S → S) : M S unit := λ s, (Ok (), f s).
Definition lift_result {S A} (r : res A) : M S A := λ s, (r, s).

(** ** pymodbus: responses, the client, the payload decoder *)

Inductive request : Type :=
  | ReadInputRegisters (address count slave : Z)
  | ReadHoldingRegisters (address count slave : Z)
  | WriteRegisters (address : Z) (values : number) (slave : Z).

(** A request is answered by a register response or by an error response
    (an exception code, a timeout, a reset): [isError()] tells them apart. *)
Inductive response : Type :=
  | ReadRegistersResponse (registers : list Z)
  | ExceptionResponse.

Definition isError (r : response) : bool :=
  match r with
  | ExceptionResponse => true
  | ReadRegistersResponse _ => false
  end.

Definition registers (r : response) : list Z :=
  match r with
  | ReadRegistersResponse l => l
  | ExceptionResponse => []
  end.

Record BinaryPayloadDecoder : Type := {
  _payload : list Z;
  _pointer : nat;
}.

(** [pack('!H', x)]: two bytes, high byte first; only for [0 <= x < 65536]. *)
Definition pack_H (x : Z) : option (list Z) :=
  if (0 <=? x) && (x <? 65536) then Some [x / 256; x mod 256] else None.

(** [unpack('>H', handle)] and [unpack('>h', handle)]. *)
Definition unpack_H (handle : list Z) : option Z :=
  match handle with
  | [b0; b1] => Some (b0 * 256 + b1)
  | _ => None
  end.

Definition unpack_h (handle : list Z) : option Z :=
  u ← unpack_H handle;
  Some (if u <? 32768 then u else u - 65536).

(** [payload[i:j]] *)
Definition slice (payload : list Z) (i j : nat) : list Z :=
  take (j - i)%nat (drop i payload).

(** ** The coordinator and the frame of a method call *)

Record coordinator : Type := {
  _model : string;
  _client : request → response;
  calls : list request;      (* the requests sent to the client, oldest first *)
  data : dict;               (* the snapshot published to the entities *)
}.

Record frame : Type := {
  self : coordinator;
  result : dict;
  decoder : BinaryPayloadDecoder;
}.

Abbreviation Coord := (M coordinator).
Abbreviation Method := (M frame).

Definition set_self (c : coordinator) (s : frame) : frame :=
  {| self := c; result := result s; decoder := decoder s |}.
Definition set_result (r : dict) (s : frame) : frame :=
  {| self := self s; result := r; decoder := decoder s |}.
Definition set_decoder (d : BinaryPayloadDecoder) (s : frame) : frame :=
  {| self := self s; result := result s; decoder := d |}.

Definition log_call (r : request) (c : coordinator) : coordinator :=
  {| _model := _model c; _client := _client c;
     calls := calls c ++ [r]; data := data c |}.
Definition set_model (m : string) (c : coordinator) : coordinator :=
  {| _model := m; _client := _client c; calls := calls c; data := data c |}.
Definition set_data_ (d : dict) (c : coordinator) : coordinator :=
  {| _model := _model c; _client := _client c; calls := calls c; data := d |}.

(** Calling a method: fresh locals, the caller's [self]. *)
Definition call {A} (m : Method A) : Coord A := λ c,
  let '(r, s) := m {| self := c; result := ∅;
                      decoder := {| _payload := []; _pointer := 0 |} |} in
  (r, self s).

(** Running a method of [self] from within another method. *)
Definition on_self {A} (m : Coord A) : Method A := λ s,
  let '(r, c) := m (self s) in (r, set_self c s).

(** [result[key] = value], [result[key]] and [return result]. *)
Definition setitem (key : string) (value : pyval) : Method unit :=
  modify (λ s, set_result (<[key := value]> (result s)) s).

Definition getitem (key : string) : Method pyval := λ s,
  match result s !! key with
  | Some v => (Ok v, s)
  | None => (Raise (KeyError key), s)
  end.

Definition return_result : Method dict := λ s, (Ok (result s), s).

(** [BinaryPayloadDecoder.fromRegisters(registers, byteorder=Endian.Big)] *)
Definition fromRegisters (registers : list Z) : Method unit :=
  match mapM pack_H registers with
  | Some chunks =>
      modify (set_decoder {| _payload := concat chunks; _pointer := 0 |})
  | None => raise StructError
  end.

Definition decode_with (unpack : list Z → option Z) : Method Z := λ s,
  let d := decoder s in
  let p := (_pointer d + 2)%nat in
  let s' := set_decoder {| _payload := _payload d; _pointer := p |} s in
  match unpack (slice (_payload d) (p - 2) p) with
  | Some v => (Ok v, s')
  | None => (Raise StructError, s')
  end.

Definition decode_16bit_uint : Method Z := decode_with unpack_H.
Definition decode_16bit_int : Method Z := decode_with unpack_h.

Definition skip_bytes (nbytes : nat) : Method unit :=
  modify (λ s, let d := decoder s in
               set_decoder {| _payload := _payload d;
                              _pointer := (_pointer d + nbytes)%nat |} s).

(** ** The keys of the snapshot (const.py)

    Modelled from the spec: const.py is not among the sources.  The spec
    names the key of OPERATION_MODE ["operation_mode"]; every key constant
    is taken to be the lower-case spelling of its name, so that distinct
    constants are distinct keys. *)

Definition ACTUAL_TEMPERATURE : string := "actual_temperature".
Definition TARGET_TEMPERATURE : string := "target_temperature".
Definition ACTUAL_TEMPERATURE_FEK : string := "actual_temperature_fek".
Definition TARGET_TEMPERATURE_FEK : string := "target_temperature_fek".
Definition ACTUAL_HUMIDITY : string := "actual_humidity".
Definition DEWPOINT_TEMPERATURE : string := "dewpoint_temperature".
Definition OUTDOOR_TEMPERATURE : string := "outdoor_temperature".
Definition ACTUAL_TEMPERATURE_HK1 : string := "actual_temperature_hk1".
Definition TARGET_TEMPERATURE_HK1 : string := "target_temperature_hk1".
Definition ACTUAL_TEMPERATURE_HK2 : string := "actual_temperature_hk2".
Definition TARGET_TEMPERATURE_HK2 : string := "target_temperature_hk2".
Definition ACTUAL_TEMPERATURE_BUFFER : string := "actual_temperature_buffer".
Definition TARGET_TEMPERATURE_BUFFER : string := "target_temperature_buffer".
Definition ACTUAL_TEMPERATURE_WATER : string := "actual_temperature_water".
Definition TARGET_TEMPERATURE_WATER : string := "target_temperature_water".
Definition HEATER_PRESSURE : string := "heater_pressure".
Definition VOLUME_STREAM : string := "volume_stream".
Definition SOURCE_TEMPERATURE : string := "source_temperature".
Definition PRODUCED_HEATING_TODAY : string := "produced_heating_today".
Definition PRODUCED_HEATING_TOTAL : string := "produced_heating_total".
Definition PRODUCED_WATER_HEATING_TODAY : string := "produced_water_heating_today".
Definition PRODUCED_WATER_HEATING_TOTAL : string := "produced_water_heating_total".
Definition CONSUMED_HEATING_TODAY : string := "consumed_heating_today".
Definition CONSUMED_HEATING_TOTAL : string := "consumed_heating_total".
Definition CONSUMED_WATER_HEATING_TODAY : string := "consumed_water_heating_today".
Definition CONSUMED_WATER_HEATING_TOTAL : string := "consumed_water_heating_total".
Definition CONSUMED_POWER : string := "consumed_power".
Definition IS_HEATING : string := "is_heating".
Definition IS_HEATING_WATER : string := "is_heating_water".
Definition IS_SUMMER_MODE : string := "is_summer_mode".
Definition IS_COOLING : string := "is_cooling".
Definition SG_READY_STATE : string := "sg_ready_state".
Definition SG_READY_ACTIVE : string := "sg_ready_active".
Definition SG_READY_INPUT_1 : string := "sg_ready_input_1".
Definition SG_READY_INPUT_2 : string := "sg_ready_input_2".
Definition OPERATION_MODE : string := "operation_mode".
Definition ACTUAL_TEMPERATURE_HK3 : string := "actual_temperature_hk3".
Definition TARGET_TEMPERATURE_HK3 : string := "target_temperature_hk3".
Definition FLOW_TEMPERATURE : string := "flow_temperature".
Definition FLOW_TEMPERATURE_NHZ : string := "flow_temperature_nhz".
Definition RETURN_TEMPERATURE : string := "return_temperature".
Definition SOURCE_PRESSURE : string := "source_pressure".
Definition HOT_GAS_TEMPERATURE : string := "hot_gas_temperature".
Definition HIGH_PRESSURE : string := "high_pressure".
Definition LOW_PRESSURE : string := "low_pressure".
Definition RETURN_TEMPERATURE_WP1 : string := "return_temperature_wp1".
Definition FLOW_TEMPERATURE_WP1 : string := "flow_temperature_wp1".
Definition HOT_GAS_TEMPERATURE_WP1 : string := "hot_gas_temperature_wp1".
Definition LOW_PRESSURE_WP1 : string := "low_pressure_wp1".
Definition HIGH_PRESSURE_WP1 : string := "high_pressure_wp1".
Definition VOLUME_STREAM_WP1 : string := "volume_stream_wp1".
Definition RETURN_TEMPERATURE_WP2 : string := "return_temperature_wp2".
Definition FLOW_TEMPERATURE_WP2 : string := "flow_temperature_wp2".
Definition HOT_GAS_TEMPERATURE_WP2 : string := "hot_gas_temperature_wp2".
Definition LOW_PRESSURE_WP2 : string := "low_pressure_wp2".
Definition HIGH_PRESSURE_WP2 : string := "high_pressure_wp2".
Definition VOLUME_STREAM_WP2 : string := "volume_stream_wp2".
Definition ACTUAL_ROOM_TEMPERATURE_HK1 : string := "actual_room_temperature_hk1".
Definition TARGET_ROOM_TEMPERATURE_HK1 : string := "target_room_temperature_hk1".
Definition ACTUAL_HUMIDITY_HK1 : string := "actual_humidity_hk1".
Definition DEWPOINT_TEMPERATURE_HK1 : string := "dewpoint_temperature_hk1".
Definition ACTUAL_ROOM_TEMPERATURE_HK2 : string := "actual_room_temperature_hk2".
Definition TARGET_ROOM_TEMPERATURE_HK2 : string := "target_room_temperature_hk2".
Definition ACTUAL_HUMIDITY_HK2 : string := "actual_humidity_hk2".
Definition DEWPOINT_TEMPERATURE_HK2 : string := "dewpoint_temperature_hk2".
Definition ACTUAL_ROOM_TEMPERATURE_HK3 : string := "actual_room_temperature_hk3".
Definition TARGET_ROOM_TEMPERATURE_HK3 : string := "target_room_temperature_hk3".
Definition ACTUAL_HUMIDITY_HK3 : string := "actual_humidity_hk3".
Definition DEWPOINT_TEMPERATURE_HK3 : string := "dewpoint_temperature_hk3".
Definition PUMP_ON_HK1 : string := "pump_on_hk1".
Definition PUMP_ON_HK2 : string := "pump_on_hk2".
Definition COMPRESSOR_ON : string := "compressor_on".
Definition CIRCULATION_PUMP : string := "circulation_pump".
Definition EVAPORATOR_DEFROST : string := "evaporator_defrost".
Definition HEAT_UP_PROGRAM : string := "heat_up_program".
Definition NHZ_STAGES_RUNNING : string := "nhz_stages_running".
Definition COMFORT_TEMPERATURE_TARGET_HK1 : string := "comfort_temperature_target_hk1".
Definition ECO_TEMPERATURE_TARGET_HK1 : string := "eco_temperature_target_hk1".
Definition HEATING_CURVE_RISE_HK1 : string := "heating_curve_rise_hk1".
Definition COMFORT_TEMPERATURE_TARGET_HK2 : string := "comfort_temperature_target_hk2".
Definition ECO_TEMPERATURE_TARGET_HK2 : string := "eco_temperature_target_hk2".
Definition HEATING_CURVE_RISE_HK2 : string := "heating_curve_rise_hk2".
Definition DUALMODE_TEMPERATURE_HZG : string := "dualmode_temperature_hzg".
Definition COMFORT_WATER_TEMPERATURE_TARGET : string := "comfort_water_temperature_target".
Definition ECO_WATER_TEMPERATURE_TARGET : string := "eco_water_temperature_target".
Definition DUALMODE_TEMPERATURE_WW : string := "dualmode_temperature_ww".
Definition AREA_COOLING_TARGET_ROOM_TEMPERATURE : string := "area_cooling_target_room_temperature".
Definition AREA_COOLING_TARGET_FLOW_TEMPERATURE : string := "area_cooling_target_flow_temperature".
Definition FAN_COOLING_TARGET_ROOM_TEMPERATURE : string := "fan_cooling_target_room_temperature".
Definition FAN_COOLING_TARGET_FLOW_TEMPERATURE : string := "fan_cooling_target_flow_temperature".
Definition ACTIVE_ERROR : string := "active_error".
Definition ERROR_STATUS : string := "error_status".
Definition ACTUAL_TEMPERATURE_COOLING_FANCOIL : string := "actual_temperature_cooling_fancoil".
Definition TARGET_TEMPERATURE_COOLING_FANCOIL : string := "target_temperature_cooling_fancoil".
Definition ACTUAL_TEMPERATURE_COOLING_SURFACE : string := "actual_temperature_cooling_surface".
Definition TARGET_TEMPERATURE_COOLING_SURFACE : string := "target_temperature_cooling_surface".
Definition HEATING_CIRCUIT_1_PUMP : string := "heating_circuit_1_pump".
Definition HEATING_CIRCUIT_2_PUMP : string := "heating_circuit_2_pump".
Definition HEATING_CIRCUIT_3_PUMP : string := "heating_circuit_3_pump".
Definition HEATING_CIRCUIT_4_PUMP : string := "heating_circuit_4_pump".
Definition HEATING_CIRCUIT_5_PUMP : string := "heating_circuit_5_pump".
Definition BUFFER_1_CHARGING_PUMP : string := "buffer_1_charging_pump".
Definition BUFFER_2_CHARGING_PUMP : string := "buffer_2_charging_pump".
Definition BUFFER_3_CHARGING_PUMP : string := "buffer_3_charging_pump".
Definition BUFFER_4_CHARGING_PUMP : string := "buffer_4_charging_pump".
Definition BUFFER_5_CHARGING_PUMP : string := "buffer_5_charging_pump".
Definition BUFFER_6_CHARGING_PUMP : string := "buffer_6_charging_pump".
Definition DHW_CHARGING_PUMP : string := "dhw_charging_pump".
Definition SOURCE_PUMP : string := "source_pump".
Definition DIFF_CONTROLLER_1_PUMP : string := "diff_controller_1_pump".
Definition DIFF_CONTROLLER_2_PUMP : string := "diff_controller_2_pump".
Definition POOL_PRIMARY_PUMP : string := "pool_primary_pump".
Definition POOL_SECONDARY_PUMP : string := "pool_secondary_pump".
Definition HEAT_PUMP_1_ON : string := "heat_pump_1_on".
Definition HEAT_PUMP_2_ON : string := "heat_pump_2_on".
Definition HEAT_PUMP_3_ON : string := "heat_pump_3_on".
Definition HEAT_PUMP_4_ON : string := "heat_pump_4_on".
Definition HEAT_PUMP_5_ON : string := "heat_pump_5_on".
Definition HEAT_PUMP_6_ON : string := "heat_pump_6_on".
Definition SECOND_GENERATOR_DHW : string := "second_generator_dhw".
Definition SECOND_GENERATOR_HEATING : string := "second_generator_heating".
Definition COOLING_MODE : string := "cooling_mode".
Definition MIXER_OPEN_HTG_CIRCUIT_2 : string := "mixer_open_htg_circuit_2".
Definition MIXER_OPEN_HTG_CIRCUIT_3 : string := "mixer_open_htg_circuit_3".
Definition MIXER_OPEN_HTG_CIRCUIT_4 : string := "mixer_open_htg_circuit_4".
Definition MIXER_OPEN_HTG_CIRCUIT_5 : string := "mixer_open_htg_circuit_5".
Definition MIXER_CLOSE_HTG_CIRCUIT_2 : string := "mixer_close_htg_circuit_2".
Definition MIXER_CLOSE_HTG_CIRCUIT_3 : string := "mixer_close_htg_circuit_3".
Definition MIXER_CLOSE_HTG_CIRCUIT_4 : string := "mixer_close_htg_circuit_4".
Definition MIXER_CLOSE_HTG_CIRCUIT_5 : string := "mixer_close_htg_circuit_5".
Definition EMERGENCY_HEATING_1 : string := "emergency_heating_1".
Definition EMERGENCY_HEATING_2 : string := "emergency_heating_2".
Definition EMERGENCY_HEATING_1_2 : string := "emergency_heating_1_2".

(** ** Python arithmetic on decoded values *)

(** [x / n] for a decoded value [x] and an integer constant [n]. *)
Definition truediv {S} (x : pyval) (n : Z) : M S pyval :=
  match x with
  | PyFloat f => mret (PyFloat (f / float_of_Z n))
  | PyInt z => mret (PyFloat (float_of_Z z / float_of_Z n))
  | PyBool b => mret (PyFloat (float_of_Z (Z.b2z b) / float_of_Z n))
  | PyNone | PyStr _ | PyList _ => raise TypeError
  end.

(** [int(value * scale)] for a number handed to [set_data]. *)
Definition int_mul (value : number) (scale : Z) : res Z :=
  match value with
  | NInt z => Ok (z * scale)
  | NFloat f => int_of_float (f * float_of_Z scale)
  end.

(** [f"error {error}"] *)
Definition format_error (error : Z) : string := "error " +:+ pretty error.

(** [(state & (1 << bit)) != 0] *)
Definition bit_set (state : Z) (bit : Z) : bool :=
  negb (Z.land state (Z.shiftl 1 bit) =? 0).

(** ** The client wrappers of the coordinator (shared by both families) *)

Definition read_input_registers (slave address count : Z) : Method response :=
  on_self (λ c, let r := ReadInputRegisters address count slave in
                (Ok (_client c r), log_call r c)).

Definition read_holding_registers (slave address count : Z) : Method response :=
  on_self (λ c, let r := ReadHoldingRegisters address count slave in
                (Ok (_client c r), log_call r c)).

Definition write_register (address : Z) (value : number) (slave : Z) : Method response :=
  on_self (λ c, let r := WriteRegisters address value slave in
                (Ok (_client c r), log_call r c)).

(** [self.data[key] = value] *)
Definition data_setitem (key : string) (value : pyval) : Method unit :=
  on_self (modify (λ c, set_data_ (<[key := value]> (data c)) c)).

Definition assign_model (m : string) : Method unit :=
  on_self (modify (set_model m)).

(** Home Assistant's DataUpdateCoordinator: a refresh stores what
    [_async_update_data] returns as the new [data]; when it raises
    [UpdateFailed] the refresh is marked failed and [data] is left as it was. *)
Definition async_refresh (_async_update_data : Coord dict) : Coord unit := λ c,
  match _async_update_data c with
  | (Ok d, c') => (Ok (), set_data_ d c')
  | (Raise _, c') => (Ok (), c')
  end.

(** ** The base coordinator: [StiebelEltronModbusDataCoordinator] *)

Module Base.
Section Coordinator.

(** const.py's [HEATPUMPT_AVERAGE_POWER], a numeric constant whose value the
    coordinator does not depend on. *)
Variable HEATPUMPT_AVERAGE_POWER : number.

Definition get_isg_scaled_value (value : Z) : pyval :=
  if negb (value =? -32768) then PyFloat (float_of_Z value * 0.1) else PyNone.

Definition read_modbus_system_state : Method dict :=
  inverter_data ← read_input_registers 1 2500 1;
  (if negb (isError inverter_data) then
     fromRegisters (registers inverter_data);;
     state ← decode_16bit_uint;
     let is_heating := bit_set state 4 in
     setitem IS_HEATING (PyBool is_heating);;
     let is_heating_water := bit_set state 5 in
     setitem IS_HEATING_WATER (PyBool is_heating_water);;
     setitem CONSUMED_POWER
       (if is_heating_water || is_heating
        then pyval_of_number HEATPUMPT_AVERAGE_POWER else PyFloat 0.0);;
     setitem IS_SUMMER_MODE (PyBool (bit_set state 7));;
     setitem IS_COOLING (PyBool (bit_set state 8))
   else mret ());;
  return_result.

Definition read_modbus_system_values : Method dict :=
  inverter_data ← read_input_registers 1 500 40;
  (if negb (isError inverter_data) then
     fromRegisters (registers inverter_data);;
     v ← decode_16bit_int; setitem ACTUAL_TEMPERATURE (get_isg_scaled_value v);;
     v ← decode_16bit_int; setitem TARGET_TEMPERATURE (get_isg_scaled_value v);;
     v ← decode_16bit_int; setitem ACTUAL_TEMPERATURE_FEK (get_isg_scaled_value v);;
     v ← decode_16bit_int; setitem TARGET_TEMPERATURE_FEK (get_isg_scaled_value v);;
     v ← decode_16bit_int; setitem ACTUAL_HUMIDITY (get_isg_scaled_value v);;
     v ← decode_16bit_int; setitem DEWPOINT_TEMPERATURE (get_isg_scaled_value v);;
     v ← decode_16bit_int; setitem OUTDOOR_TEMPERATURE (get_isg_scaled_value v);;
     v ← decode_16bit_int; setitem ACTUAL_TEMPERATURE_HK1 (get_isg_scaled_value v);;
     v ← decode_16bit_int; let hk1_target := get_isg_scaled_value v in
     v ← decode_16bit_int; setitem TARGET_TEMPERATURE_HK1 (get_isg_scaled_value v);;
     v ← decode_16bit_int; setitem ACTUAL_TEMPERATURE_HK2 (get_isg_scaled_value v);;
     v ← decode_16bit_int; setitem TARGET_TEMPERATURE_HK2 (get_isg_scaled_value v);;
     skip_bytes 10;;
     v ← decode_16bit_int; setitem ACTUAL_TEMPERATURE_BUFFER (get_isg_scaled_value v);;
     v ← decode_16bit_int; setitem TARGET_TEMPERATURE_BUFFER (get_isg_scaled_value v);;
     v ← decode_16bit_int; q ← truediv (get_isg_scaled_value v) 10;
     setitem HEATER_PRESSURE q;;
     v ← decode_16bit_int; q ← truediv (get_isg_scaled_value v) 10;
     setitem VOLUME_STREAM q;;
     v ← decode_16bit_int; setitem ACTUAL_TEMPERATURE_WATER (get_isg_scaled_value v);;
     v ← decode_16bit_int; setitem TARGET_TEMPERATURE_WATER (get_isg_scaled_value v);;
     skip_bytes 24;;
     v ← decode_16bit_int; setitem SOURCE_TEMPERATURE (get_isg_scaled_value v)
   else mret ());;
  return_result.

Definition read_modbus_system_paramter : Method dict :=
  inverter_data ← read_holding_registers 1 1500 19;
  (if negb (isError inverter_data) then
     fromRegisters (registers inverter_data);;
     v ← decode_16bit_uint; setitem OPERATION_MODE (PyInt v)
   else mret ());;
  return_result.

Definition read_modbus_energy : Method dict :=
  inverter_data ← read_input_registers 1 3500 22;
  (if negb (isError inverter_data) then
     fromRegisters (registers inverter_data);;
     produced_heating_today ← decode_16bit_uint;
     produced_heating_total_low ← decode_16bit_uint;
     produced_heating_total_high ← decode_16bit_uint;
     produced_water_today ← decode_16bit_uint;
     produced_water_total_low ← decode_16bit_uint;
     produced_water_total_high ← decode_16bit_uint;
     skip_bytes 8;;
     consumed_heating_today ← decode_16bit_uint;
     consumed_heating_total_low ← decode_16bit_uint;
     consumed_heating_total_high ← decode_16bit_uint;
     consumed_water_today ← decode_16bit_uint;
     consumed_water_total_low ← decode_16bit_uint;
     consumed_water_total_high ← decode_16bit_uint;
     setitem PRODUCED_HEATING_TODAY (PyInt produced_heating_today);;
     setitem PRODUCED_HEATING_TOTAL
       (PyInt (produced_heating_total_high * 1000 + produced_heating_total_low));;
     setitem PRODUCED_WATER_HEATING_TODAY (PyInt produced_water_today);;
     setitem PRODUCED_WATER_HEATING_TOTAL
       (PyInt (produced_water_total_high * 1000 + produced_water_total_low));;
     setitem CONSUMED_HEATING_TODAY (PyInt consumed_heating_today);;
     setitem CONSUMED_HEATING_TOTAL
       (PyInt (consumed_heating_total_high * 1000 + consumed_heating_total_low));;
     setitem CONSUMED_WATER_HEATING_TODAY (PyInt consumed_water_today);;
     setitem CONSUMED_WATER_HEATING_TOTAL
       (PyInt (consumed_water_total_high * 1000 + consumed_water_total_low))
   else mret ());;
  return_result.

Definition read_modbus_sg_ready : Method dict :=
  inverter_data ← read_input_registers 1 5000 2;
  (if negb (isError inverter_data) then
     fromRegisters (registers inverter_data);;
     v ← decode_16bit_uint; setitem SG_READY_STATE (PyInt v);;
     model ← decode_16bit_uint;
     if model =? 390 then assign_model "WPM 3"
     else if model =? 391 then assign_model "WPM 3i"
     else if model =? 449 then assign_model "WPMsystem"
     else assign_model "other model"
   else mret ());;
  inverter_data ← read_holding_registers 1 4000 3;
  (if negb (isError inverter_data) then
     fromRegisters (registers inverter_data);;
     v ← decode_16bit_uint; setitem SG_READY_ACTIVE (PyInt v);;
     v ← decode_16bit_uint; setitem SG_READY_INPUT_1 (PyInt v);;
     v ← decode_16bit_uint; setitem SG_READY_INPUT_2 (PyInt v)
   else mret ());;
  return_result.

Definition read_modbus_data : Coord dict :=
  energy ← call read_modbus_energy;
  system_state ← call read_modbus_system_state;
  system_values ← call read_modbus_system_values;
  system_paramter ← call read_modbus_system_paramter;
  sg_ready ← call read_modbus_sg_ready;
  let result :=
    dict_merge (dict_merge (dict_merge (dict_merge
      energy system_state) system_values) system_paramter) sg_ready in
  mret result.

Definition _async_update_data : Coord dict := λ c,
  match read_modbus_data c with
  | (Ok d, c') => (Ok d, c')
  | (Raise _, c') => (Raise UpdateFailed, c')
  end.

Definition set_data (key : string) (value : number) : Method unit :=
  let assign := data_setitem key (pyval_of_number value) in
  if bool_decide (key = SG_READY_ACTIVE) then
    write_register 4000 value 1;; assign
  else if bool_decide (key = SG_READY_INPUT_1) then
    write_register 4001 value 1;; assign
  else if bool_decide (key = SG_READY_INPUT_2) then
    write_register 4002 value 1;; assign
  else if bool_decide (key = OPERATION_MODE) then
    write_register 1500 value 1;; assign
  else mret ().

End Coordinator.
End Base.

(** ** The WPM coordinator: [StiebelEltronModbusWPMDataCoordinator] *)

Module WPM.

(** Modelled from the spec: [get_isg_scaled_value(value, factor)] of
    coordinator.py, which wpm_coordinator.py imports and calls with one and
    with two arguments, is not among the sources.  The spec's
    [decode_scaled(raw, divisor=10)]: the quotient [raw / divisor], and the
    absent value when [raw == -32768]. *)
Definition get_isg_scaled_value (value : Z) (factor : Z) : pyval :=
  if negb (value =? -32768)
  then PyFloat (float_of_Z value / float_of_Z factor) else PyNone.

Definition read_modbus_system_state : Method dict :=
  inverter_data ← read_input_registers 1 2500 47;
  (if negb (isError inverter_data) then
     fromRegisters (registers inverter_data);;
     (* 2501 *)
     state ← decode_16bit_uint;
     setitem PUMP_ON_HK1 (PyBool (bit_set state 0));;
     setitem PUMP_ON_HK2 (PyBool (bit_set state 1));;
     setitem HEAT_UP_PROGRAM (PyBool (bit_set state 2));;
     setitem NHZ_STAGES_RUNNING (PyBool (bit_set state 3));;
     setitem IS_HEATING (PyBool (bit_set state 4));;
     setitem IS_HEATING_WATER (PyBool (bit_set state 5));;
     setitem COMPRESSOR_ON (PyBool (bit_set state 6));;
     setitem IS_SUMMER_MODE (PyBool (bit_set state 7));;
     setitem IS_COOLING (PyBool (bit_set state 8));;
     setitem EVAPORATOR_DEFROST (PyBool (bit_set state 9));;
     (* 2502-2503 to implement for WPM 3 back compatibility *)
     skip_bytes 4;;
     (* 2504 *)
     v ← decode_16bit_uint; setitem ERROR_STATUS (PyInt v);;
     (* 2505-2506 *)
     skip_bytes 4;;
     (* 2507 *)
     error ← decode_16bit_uint;
     (if error =? 32768 then setitem ACTIVE_ERROR (PyStr "no error")
      else setitem ACTIVE_ERROR (PyStr (format_error error)));;
     (* 2508 *)
     skip_bytes 2;;
     (* 2509 *)
     heating_circuit_1_pump ← decode_16bit_uint;
     (if negb (heating_circuit_1_pump =? 32768)
      then getitem HEATING_CIRCUIT_1_PUMP;; mret () else mret ());;
     (* 2510 *)
     heating_circuit_2_pump ← decode_16bit_uint;
     (if negb (heating_circuit_2_pump =? 32768)
      then getitem HEATING_CIRCUIT_2_PUMP;; mret () else mret ());;
     (* 2511 *)
     heating_circuit_3_pump ← decode_16bit_uint;
     (if negb (heating_circuit_3_pump =? 32768)
      then getitem HEATING_CIRCUIT_3_PUMP;; mret () else mret ());;
     (* 2512 *)
     buffer_1_charging_pump ← decode_16bit_uint;
     (if negb (buffer_1_charging_pump =? 32768)
      then getitem BUFFER_1_CHARGING_PUMP;; mret () else mret ());;
     (* 2513 *)
     buffer_2_charging_pump ← decode_16bit_uint;
     (if negb (buffer_2_charging_pump =? 32768)
      then getitem BUFFER_2_CHARGING_PUMP;; mret () else mret ());;
     (* 2514 *)
     dhw_charging_pump ← decode_16bit_uint;
     (if negb (dhw_charging_pump =? 32768)
      then getitem DHW_CHARGING_PUMP;; mret () else mret ());;
     (* 2515 *)
     source_pump ← decode_16bit_uint;
     (if negb (source_pump =? 32768)
      then getitem SOURCE_PUMP;; mret () else mret ());;
     (* 2516 *)
     skip_bytes 2;;
     (* 2517 *)
     circulation_pump ← decode_16bit_uint;
     (if negb (circulation_pump =? 32768)
      then setitem CIRCULATION_PUMP (PyInt circulation_pump) else mret ());;
     (* 2518 *)
     second_generator_dhw ← decode_16bit_uint;
     (if negb (second_generator_dhw =? 32768)
      then setitem SECOND_GENERATOR_DHW (PyInt second_generator_dhw) else mret ());;
     (* 2519 *)
     second_generator_heating ← decode_16bit_uint;
     (if negb (second_generator_heating =? 32768)
      then setitem SECOND_GENERATOR_HEATING (PyInt second_generator_heating) else mret ());;
     (* 2520 *)
     cooling_mode ← decode_16bit_uint;
     (if negb (cooling_mode =? 32768)
      then setitem COOLING_MODE (PyInt cooling_mode) else mret ());;
     (* 2521 *)
     mixer_open_htc_circuit_2 ← decode_16bit_uint;
     (if negb (mixer_open_htc_circuit_2 =? 32768)
      then setitem MIXER_OPEN_HTG_CIRCUIT_2 (PyInt mixer_open_htc_circuit_2) else mret ());;
     (* 2522 *)
     mixer_close_htc_circuit_2 ← decode_16bit_uint;
     (if negb (mixer_close_htc_circuit_2 =? 32768)
      then setitem MIXER_CLOSE_HTG_CIRCUIT_2 (PyInt mixer_close_htc_circuit_2) else mret ());;
     (* 2523 *)
     mixer_open_htc_circuit_3 ← decode_16bit_uint;
     (if negb (mixer_open_htc_circuit_3 =? 32768)
      then setitem MIXER_OPEN_HTG_CIRCUIT_3 (PyInt mixer_open_htc_circuit_3) else mret ());;
     (* 2524 *)
     mixer_close_htc_circuit_3 ← decode_16bit_uint;
     (if negb (mixer_close_htc_circuit_3 =? 32768)
      then setitem MIXER_CLOSE_HTG_CIRCUIT_3 (PyInt mixer_close_htc_circuit_3) else mret ());;
     (* 2525 *)
     emergency_heating_1 ← decode_16bit_uint;
     (if negb (emergency_heating_1 =? 32768)
      then setitem EMERGENCY_HEATING_1 (PyInt emergency_heating_1) else mret ());;
     (* 2526 *)
     emergency_heating_2 ← decode_16bit_uint;
     (if negb (emergency_heating_2 =? 32768)
      then setitem EMERGENCY_HEATING_2 (PyInt emergency_heating_2) else mret ());;
     (* 2527 *)
     emergency_heating_1_2 ← decode_16bit_uint;
     (if negb (emergency_heating_1_2 =? 32768)
      then setitem EMERGENCY_HEATING_1_2 (PyInt emergency_heating_1_2) else mret ());;
     (* 2528 *)
     heating_circuit_4_pump ← decode_16bit_uint;
     (if negb (heating_circuit_4_pump =? 32768)
      then setitem HEATING_CIRCUIT_4_PUMP (PyInt heating_circuit_4_pump) else mret ());;
     (* 2529 *)
     heating_circuit_5_pump ← decode_16bit_uint;
     (if negb (heating_circuit_5_pump =? 32768)
      then setitem HEATING_CIRCUIT_5_PUMP (PyInt heating_circuit_5_pump) else mret ());;
     (* 2530 *)
     buffer_3_charging_pump ← decode_16bit_uint;
     (if negb (buffer_3_charging_pump =? 32768)
      then setitem BUFFER_3_CHARGING_PUMP (PyInt buffer_3_charging_pump) else mret ());;
     (* 2531 *)
     buffer_4_charging_pump ← decode_16bit_uint;
     (if negb (buffer_4_charging_pump =? 32768)
      then setitem BUFFER_4_CHARGING_PUMP (PyInt buffer_4_charging_pump) else mret ());;
     (* 2532 *)
     buffer_5_charging_pump ← decode_16bit_uint;
     (if negb (buffer_5_charging_pump =? 32768)
      then setitem BUFFER_5_CHARGING_PUMP (PyInt buffer_5_charging_pump) else mret ());;
     (* 2533 *)
     buffer_6_charging_pump ← decode_16bit_uint;
     (if negb (buffer_6_charging_pump =? 32768)
      then setitem BUFFER_6_CHARGING_PUMP (PyInt buffer_6_charging_pump) else mret ());;
     (* 2534 *)
     diff_controller_1_pump ← decode_16bit_uint;
     (if negb (diff_controller_1_pump =? 32768)
      then setitem DIFF_CONTROLLER_1_PUMP (PyInt diff_controller_1_pump) else mret ());;
     (* 2535 *)
     diff_controller_2_pump ← decode_16bit_uint;
     (if negb (diff_controller_2_pump =? 32768)
      then setitem DIFF_CONTROLLER_2_PUMP (PyInt diff_controller_2_pump) else mret ());;
     (* 2536 *)
     pool_primary_pump ← decode_16bit_uint;
     (if negb (pool_primary_pump =? 32768)
      then setitem POOL_PRIMARY_PUMP (PyInt pool_primary_pump) else mret ());;
     (* 2537 *)
     pool_secondary_pump ← decode_16bit_uint;
     (if negb (pool_secondary_pump =? 32768)
      then setitem POOL_SECONDARY_PUMP (PyInt pool_secondary_pump) else mret ());;
     (* 2538 *)
     mixer_open_htc_circuit_4 ← decode_16bit_uint;
     (if negb (mixer_open_htc_circuit_4 =? 32768)
      then setitem MIXER_OPEN_HTG_CIRCUIT_4 (PyInt mixer_open_htc_circuit_4) else mret ());;
     (* 2539 *)
     mixer_close_htc_circuit_4 ← decode_16bit_uint;
     (if negb (mixer_close_htc_circuit_4 =? 32768)
      then setitem MIXER_CLOSE_HTG_CIRCUIT_4 (PyInt mixer_close_htc_circuit_4) else mret ());;
     (* 2540 *)
     mixer_open_htc_circuit_5 ← decode_16bit_uint;
     (if negb (mixer_open_htc_circuit_5 =? 32768)
      then setitem MIXER_OPEN_HTG_CIRCUIT_5 (PyInt mixer_open_htc_circuit_5) else mret ());;
     (* 2541 *)
     mixer_close_htc_circuit_5 ← decode_16bit_uint;
     (if negb (mixer_close_htc_circuit_5 =? 32768)
      then setitem MIXER_CLOSE_HTG_CIRCUIT_5 (PyInt mixer_close_htc_circuit_5) else mret ());;
     (* 2542 *)
     heat_pump_1_on ← decode_16bit_uint;
     (if negb (heat_pump_1_on =? 32768)
      then setitem HEAT_PUMP_1_ON (PyInt heat_pump_1_on) else mret ());;
     (* 2543 *)
     heat_pump_2_on ← decode_16bit_uint;
     (if negb (heat_pump_2_on =? 32768)
      then setitem HEAT_PUMP_2_ON (PyInt heat_pump_2_on) else mret ());;
     (* 2544 *)
     heat_pump_3_on ← decode_16bit_uint;
     (if negb (heat_pump_3_on =? 32768)
      then setitem HEAT_PUMP_3_ON (PyInt heat_pump_3_on) else mret ());;
     (* 2545 *)
     heat_pump_4_on ← decode_16bit_uint;
     (if negb (heat_pump_4_on =? 32768)
      then setitem HEAT_PUMP_4_ON (PyInt heat_pump_4_on) else mret ());;
     (* 2546 *)
     heat_pump_5_on ← decode_16bit_uint;
     (if negb (heat_pump_5_on =? 32768)
      then setitem HEAT_PUMP_5_ON (PyInt heat_pump_5_on) else mret ());;
     (* 2547 *)
     heat_pump_6_on ← decode_16bit_uint;
     (if negb (heat_pump_6_on =? 32768)
      then setitem HEAT_PUMP_6_ON (PyInt heat_pump_6_on) else mret ())
   else mret ());;
  return_result.

Definition read_modbus_system_values : Method dict :=
  inverter_data ← read_input_registers 1 500 111;
  (if negb (isError inverter_data) then
     fromRegisters (registers inverter_data);;
     (* 501 *)
     v ← decode_16bit_int; setitem ACTUAL_TEMPERATURE (get_isg_scaled_value v 10);;
     (* 502 *)
     v ← decode_16bit_int; setitem TARGET_TEMPERATURE (get_isg_scaled_value v 10);;
     (* 503 *)
     v ← decode_16bit_int; setitem ACTUAL_TEMPERATURE_FEK (get_isg_scaled_value v 10);;
     (* 504 *)
     v ← decode_16bit_int; setitem TARGET_TEMPERATURE_FEK (get_isg_scaled_value v 10);;
     (* 505 *)
     v ← decode_16bit_int; setitem ACTUAL_HUMIDITY (get_isg_scaled_value v 10);;
     (* 506 *)
     v ← decode_16bit_int; setitem DEWPOINT_TEMPERATURE (get_isg_scaled_value v 10);;
     (* 507 *)
     v ← decode_16bit_int; setitem OUTDOOR_TEMPERATURE (get_isg_scaled_value v 10);;
     (* 508 *)
     v ← decode_16bit_int; setitem ACTUAL_TEMPERATURE_HK1 (get_isg_scaled_value v 10);;
     (* 509 *)
     (* hk1_target = get_isg_scaled_value(decoder.decode_16bit_int()) *)
     skip_bytes 2;;
     (* 510 *)
     v ← decode_16bit_int; setitem TARGET_TEMPERATURE_HK1 (get_isg_scaled_value v 10);;
     (* 511 *)
     v ← decode_16bit_int; setitem ACTUAL_TEMPERATURE_HK2 (get_isg_scaled_value v 10);;
     (* 512 *)
     v ← decode_16bit_int; setitem TARGET_TEMPERATURE_HK2 (get_isg_scaled_value v 10);;
     (* 513 *)
     v ← decode_16bit_int; setitem FLOW_TEMPERATURE (get_isg_scaled_value v 10);;
     (* 514 *)
     v ← decode_16bit_int; setitem FLOW_TEMPERATURE_NHZ (get_isg_scaled_value v 10);;
     (* 515 *)
     skip_bytes 2;;
     (* 516 *)
     v ← decode_16bit_int; setitem RETURN_TEMPERATURE (get_isg_scaled_value v 10);;
     (* 517 *)
     skip_bytes 2;;
     (* 518 *)
     v ← decode_16bit_int; setitem ACTUAL_TEMPERATURE_BUFFER (get_isg_scaled_value v 10);;
     (* 519 *)
     v ← decode_16bit_int; setitem TARGET_TEMPERATURE_BUFFER (get_isg_scaled_value v 10);;
     (* 520 *)
     v ← decode_16bit_int; setitem HEATER_PRESSURE (get_isg_scaled_value v 100);;
     (* 521 *)
     v ← decode_16bit_int; setitem VOLUME_STREAM (get_isg_scaled_value v 100);;
     (* 522 domestic hot water *)
     v ← decode_16bit_int; setitem ACTUAL_TEMPERATURE_WATER (get_isg_scaled_value v 10);;
     (* 523 domestic hot water *)
     v ← decode_16bit_int; setitem TARGET_TEMPERATURE_WATER (get_isg_scaled_value v 10);;
     (* 524 Cooling Fancoil *)
     v ← decode_16bit_int; setitem ACTUAL_TEMPERATURE_COOLING_FANCOIL (get_isg_scaled_value v 10);;
     (* 525 Cooling Fancoil *)
     v ← decode_16bit_int; setitem TARGET_TEMPERATURE_COOLING_FANCOIL (get_isg_scaled_value v 10);;
     (* 526 Cooling Surface *)
     v ← decode_16bit_int; setitem ACTUAL_TEMPERATURE_COOLING_SURFACE (get_isg_scaled_value v 10);;
     (* 527 Cooling Surface *)
     v ← decode_16bit_int; setitem TARGET_TEMPERATURE_COOLING_SURFACE (get_isg_scaled_value v 10);;
     (* 528-535 *)
     skip_bytes 16;;
     (* 536 *)
     v ← decode_16bit_int; setitem SOURCE_TEMPERATURE (get_isg_scaled_value v 10);;
     (* 537 *)
     skip_bytes 2;;
     (* 538 *)
     v ← decode_16bit_int; setitem SOURCE_PRESSURE (get_isg_scaled_value v 100);;
     (* 539 *)
     v ← decode_16bit_int; setitem HOT_GAS_TEMPERATURE (get_isg_scaled_value v 10);;
     (* 540 *)
     v ← decode_16bit_int; setitem HIGH_PRESSURE (get_isg_scaled_value v 10);;
     (* 541 *)
     v ← decode_16bit_int; setitem LOW_PRESSURE (get_isg_scaled_value v 10);;
     (* 542 *)
     v ← decode_16bit_int; setitem RETURN_TEMPERATURE_WP1 (get_isg_scaled_value v 10);;
     (* 543 *)
     v ← decode_16bit_int; setitem FLOW_TEMPERATURE_WP1 (get_isg_scaled_value v 10);;
     (* 544 *)
     v ← decode_16bit_int; setitem HOT_GAS_TEMPERATURE_WP1 (get_isg_scaled_value v 10);;
     (* 545 *)
     v ← decode_16bit_int; setitem LOW_PRESSURE_WP1 (get_isg_scaled_value v 100);;
     (* 546 *)
     skip_bytes 2;;
     (* 547 *)
     v ← decode_16bit_int; setitem HIGH_PRESSURE_WP1 (get_isg_scaled_value v 100);;
     (* 548 *)
     v ← decode_16bit_int; setitem VOLUME_STREAM_WP1 (get_isg_scaled_value v 10);;
     (* 549 *)
     v ← decode_16bit_int; setitem RETURN_TEMPERATURE_WP2 (get_isg_scaled_value v 10);;
     (* 550 *)
     v ← decode_16bit_int; setitem FLOW_TEMPERATURE_WP2 (get_isg_scaled_value v 10);;
     (* 551 *)
     v ← decode_16bit_int; setitem HOT_GAS_TEMPERATURE_WP2 (get_isg_scaled_value v 10);;
     (* 552 *)
     v ← decode_16bit_int; setitem LOW_PRESSURE_WP2 (get_isg_scaled_value v 100);;
     (* 553 *)
     skip_bytes 2;;
     (* 554 *)
     v ← decode_16bit_int; setitem HIGH_PRESSURE_WP2 (get_isg_scaled_value v 100);;
     (* 555 *)
     v ← decode_16bit_int; setitem VOLUME_STREAM_WP2 (get_isg_scaled_value v 10);;
     (* 546-583 *)
     skip_bytes 56;;
     (* 584 *)
     v ← decode_16bit_int; setitem ACTUAL_ROOM_TEMPERATURE_HK1 (get_isg_scaled_value v 10);;
     (* 585 *)
     v ← decode_16bit_int; setitem TARGET_ROOM_TEMPERATURE_HK1 (get_isg_scaled_value v 10);;
     (* 586 *)
     v ← decode_16bit_int; setitem ACTUAL_HUMIDITY_HK1 (get_isg_scaled_value v 10);;
     (* 587 *)
     v ← decode_16bit_int; setitem DEWPOINT_TEMPERATURE_HK1 (get_isg_scaled_value v 10);;
     (* 588 *)
     v ← decode_16bit_int; setitem ACTUAL_ROOM_TEMPERATURE_HK2 (get_isg_scaled_value v 10);;
     (* 589 *)
     v ← decode_16bit_int; setitem TARGET_ROOM_TEMPERATURE_HK2 (get_isg_scaled_value v 10);;
     (* 590 *)
     v ← decode_16bit_int; setitem ACTUAL_HUMIDITY_HK2 (get_isg_scaled_value v 10);;
     (* 591 *)
     v ← decode_16bit_int; setitem DEWPOINT_TEMPERATURE_HK2 (get_isg_scaled_value v 10);;
     (* 592 *)
     v ← decode_16bit_int; setitem ACTUAL_ROOM_TEMPERATURE_HK3 (get_isg_scaled_value v 10);;
     (* 593 *)
     v ← decode_16bit_int; setitem TARGET_ROOM_TEMPERATURE_HK3 (get_isg_scaled_value v 10);;
     (* 594 *)
     v ← decode_16bit_int; setitem ACTUAL_HUMIDITY_HK3 (get_isg_scaled_value v 10);;
     (* 595 *)
     v ← decode_16bit_int; setitem DEWPOINT_TEMPERATURE_HK3 (get_isg_scaled_value v 10);;
     (* 596-599 TEMPERATURE_HK4 *)
     (* 600-603 TEMPERATURE_HK5 *)
     (* 604-608 COOLING CIRCUIT TEMPERATURE_HK1 to HK5 *)
     skip_bytes 26;;
     (* 609 *)
     v ← decode_16bit_int; setitem ACTUAL_TEMPERATURE_HK3 (get_isg_scaled_value v 10);;
     (* 610 *)
     v ← decode_16bit_int; setitem TARGET_TEMPERATURE_HK3 (get_isg_scaled_value v 10);;
     setitem "system_values" (PyList (registers inverter_data))
   else mret ());;
  return_result.

Definition read_modbus_system_paramter : Method dict :=
  inverter_data ← read_holding_registers 1 1500 19;
  (if negb (isError inverter_data) then
     fromRegisters (registers inverter_data);;
     (* 1501 *)
     v ← decode_16bit_uint; setitem OPERATION_MODE (PyInt v);;
     (* 1502 *)
     v ← decode_16bit_int; setitem COMFORT_TEMPERATURE_TARGET_HK1 (get_isg_scaled_value v 10);;
     (* 1503 *)
     v ← decode_16bit_int; setitem ECO_TEMPERATURE_TARGET_HK1 (get_isg_scaled_value v 10);;
     (* 1504 *)
     v ← decode_16bit_int; setitem HEATING_CURVE_RISE_HK1 (get_isg_scaled_value v 100);;
     (* 1505 *)
     v ← decode_16bit_int; setitem COMFORT_TEMPERATURE_TARGET_HK2 (get_isg_scaled_value v 10);;
     (* 1506 *)
     v ← decode_16bit_int; setitem ECO_TEMPERATURE_TARGET_HK2 (get_isg_scaled_value v 10);;
     (* 1507 *)
     v ← decode_16bit_int; setitem HEATING_CURVE_RISE_HK2 (get_isg_scaled_value v 100);;
     (* 1508 *)
     skip_bytes 2;;
     (* 1509 *)
     v ← decode_16bit_int; setitem DUALMODE_TEMPERATURE_HZG (get_isg_scaled_value v 10);;
     (* 1510 *)
     v ← decode_16bit_int; setitem COMFORT_WATER_TEMPERATURE_TARGET (get_isg_scaled_value v 10);;
     (* 1511 *)
     v ← decode_16bit_int; setitem ECO_WATER_TEMPERATURE_TARGET (get_isg_scaled_value v 10);;
     (* 1512 *)
     skip_bytes 2;;
     (* 1513 *)
     v ← decode_16bit_int; setitem DUALMODE_TEMPERATURE_WW (get_isg_scaled_value v 10);;
     (* 1514 *)
     v ← decode_16bit_int; setitem AREA_COOLING_TARGET_FLOW_TEMPERATURE (get_isg_scaled_value v 10);;
     (* 1515 *)
     skip_bytes 2;;
     (* 1516 *)
     v ← decode_16bit_int; setitem AREA_COOLING_TARGET_ROOM_TEMPERATURE (get_isg_scaled_value v 10);;
     (* 1517 *)
     v ← decode_16bit_int; setitem FAN_COOLING_TARGET_FLOW_TEMPERATURE (get_isg_scaled_value v 10);;
     (* 1518 *)
     skip_bytes 2;;
     (* 1519 *)
     v ← decode_16bit_int; setitem FAN_COOLING_TARGET_ROOM_TEMPERATURE (get_isg_scaled_value v 10);;
     setitem "system_paramaters" (PyList (registers inverter_data))
   else mret ());;
  return_result.

Definition read_modbus_energy : Method dict :=
  inverter_data ← read_input_registers 1 3500 22;
  (if negb (isError inverter_data) then
     fromRegisters (registers inverter_data);;
     produced_heating_today ← decode_16bit_uint;
     produced_heating_total_low ← decode_16bit_uint;
     produced_heating_total_high ← decode_16bit_uint;
     produced_water_today ← decode_16bit_uint;
     produced_water_total_low ← decode_16bit_uint;
     produced_water_total_high ← decode_16bit_uint;
     skip_bytes 8;;
     consumed_heating_today ← decode_16bit_uint;
     consumed_heating_total_low ← decode_16bit_uint;
     consumed_heating_total_high ← decode_16bit_uint;
     consumed_water_today ← decode_16bit_uint;
     consumed_water_total_low ← decode_16bit_uint;
     consumed_water_total_high ← decode_16bit_uint;
     setitem PRODUCED_HEATING_TODAY (PyInt produced_heating_today);;
     setitem PRODUCED_HEATING_TOTAL
       (PyInt (produced_heating_total_high * 1000 + produced_heating_total_low));;
     setitem PRODUCED_WATER_HEATING_TODAY (PyInt produced_water_today);;
     setitem PRODUCED_WATER_HEATING_TOTAL
       (PyInt (produced_water_total_high * 1000 + produced_water_total_low));;
     setitem CONSUMED_HEATING_TODAY (PyInt consumed_heating_today);;
     setitem CONSUMED_HEATING_TOTAL
       (PyInt (consumed_heating_total_high * 1000 + consumed_heating_total_low));;
     setitem CONSUMED_WATER_HEATING_TODAY (PyInt consumed_water_today);;
     setitem CONSUMED_WATER_HEATING_TOTAL
       (PyInt (consumed_water_total_high * 1000 + consumed_water_total_low))
   else mret ());;
  return_result.

(** [read_modbus_sg_ready] is inherited from the base coordinator. *)
Definition read_modbus_sg_ready : Method dict := Base.read_modbus_sg_ready.

Definition read_modbus_data : Coord dict :=
  energy ← call read_modbus_energy;
  system_state ← call read_modbus_system_state;
  system_values ← call read_modbus_system_values;
  system_paramter ← call read_modbus_system_paramter;
  sg_ready ← call read_modbus_sg_ready;
  let result :=
    dict_merge (dict_merge (dict_merge (dict_merge
      energy system_state) system_values) system_paramter) sg_ready in
  mret result.

(** Inherited from the base coordinator, over this class's [read_modbus_data]. *)
Definition _async_update_data : Coord dict := λ c,
  match read_modbus_data c with
  | (Ok d, c') => (Ok d, c')
  | (Raise _, c') => (Raise UpdateFailed, c')
  end.

(** [self.write_register(address=..., value=int(value * scale), slave=1)] *)
Definition write_scaled (address : Z) (value : number) (scale : Z) : Method response :=
  word ← lift_result (int_mul value scale);
  write_register address (NInt word) 1.

Definition set_data (key : string) (value : number) : Method unit :=
  let assign := data_setitem key (pyval_of_number value) in
  if bool_decide (key = SG_READY_ACTIVE) then
    write_register 4000 value 1;; assign
  else if bool_decide (key = SG_READY_INPUT_1) then
    write_register 4001 value 1;; assign
  else if bool_decide (key = SG_READY_INPUT_2) then
    write_register 4002 value 1;; assign
  else if bool_decide (key = OPERATION_MODE) then
    write_register 1500 value 1;; assign
  else if bool_decide (key = COMFORT_TEMPERATURE_TARGET_HK1) then
    write_scaled 1501 value 10;; assign
  else if bool_decide (key = ECO_TEMPERATURE_TARGET_HK1) then
    write_scaled 1502 value 10;; assign
  else if bool_decide (key = HEATING_CURVE_RISE_HK1) then
    write_scaled 1503 value 100;; assign
  else if bool_decide (key = COMFORT_TEMPERATURE_TARGET_HK2) then
    write_scaled 1504 value 10;; assign
  else if bool_decide (key = ECO_TEMPERATURE_TARGET_HK2) then
    write_scaled 1505 value 10;; assign
  else if bool_decide (key = HEATING_CURVE_RISE_HK2) then
    write_scaled 1506 value 100;; assign
  else if bool_decide (key = DUALMODE_TEMPERATURE_HZG) then
    write_scaled 1508 value 10;; assign
  else if bool_decide (key = COMFORT_WATER_TEMPERATURE_TARGET) then
    write_scaled 1509 value 10;; assign
  else if bool_decide (key = ECO_WATER_TEMPERATURE_TARGET) then
    write_scaled 1510 value 10;; assign
  else if bool_decide (key = DUALMODE_TEMPERATURE_WW) then
    write_scaled 1512 value 10;; assign
  else if bool_decide (key = AREA_COOLING_TARGET_FLOW_TEMPERATURE) then
    write_scaled 1513 value 10;; assign
  else if bool_decide (key = AREA_COOLING_TARGET_ROOM_TEMPERATURE) then
    write_scaled 1515 value 10;; assign
  else if bool_decide (key = FAN_COOLING_TARGET_FLOW_TEMPERATURE) then
    write_scaled 1516 value 10;; assign
  else if bool_decide (key = FAN_COOLING_TARGET_ROOM_TEMPERATURE) then
    write_scaled 1518 value 10;; assign
  else if bool_decide (key = CIRCULATION_PUMP) then
    write_register 47012 value 1;; assign
  else mret ().

Definition async_reset_heatpump : Method unit :=
  write_register 1519 (NInt 3) 1;; mret ().

End WPM.

(** ** The blocks of one poll cycle of the base coordinator *)

Definition energy_request : request := ReadInputRegisters 3500 22 1.
Definition system_state_request : request := ReadInputRegisters 2500 1 1.
Definition system_values_request : request := ReadInputRegisters 500 40 1.
Definition system_paramter_request : request := ReadHoldingRegisters 1500 19 1.
Definition sg_ready_request : request := ReadInputRegisters 5000 2 1.
Definition sg_ready_holding_request : request := ReadHoldingRegisters 4000 3 1.

Definition energy_keys : list string :=
  [PRODUCED_HEATING_TODAY; PRODUCED_HEATING_TOTAL;
   PRODUCED_WATER_HEATING_TODAY; PRODUCED_WATER_HEATING_TOTAL;
   CONSUMED_HEATING_TODAY; CONSUMED_HEATING_TOTAL;
   CONSUMED_WATER_HEATING_TODAY; CONSUMED_WATER_HEATING_TOTAL].
Definition system_state_keys : list string :=
  [IS_HEATING; IS_HEATING_WATER; CONSUMED_POWER; IS_SUMMER_MODE; IS_COOLING].
Definition system_values_keys : list string :=
  [ACTUAL_TEMPERATURE; TARGET_TEMPERATURE; ACTUAL_TEMPERATURE_FEK;
   TARGET_TEMPERATURE_FEK; ACTUAL_HUMIDITY; DEWPOINT_TEMPERATURE;
   OUTDOOR_TEMPERATURE; ACTUAL_TEMPERATURE_HK1; TARGET_TEMPERATURE_HK1;
   ACTUAL_TEMPERATURE_HK2; TARGET_TEMPERATURE_HK2; ACTUAL_TEMPERATURE_BUFFER;
   TARGET_TEMPERATURE_BUFFER; HEATER_PRESSURE; VOLUME_STREAM;
   ACTUAL_TEMPERATURE_WATER; TARGET_TEMPERATURE_WATER; SOURCE_TEMPERATURE].
Definition system_paramter_keys : list string := [OPERATION_MODE].
Definition sg_ready_keys : list string := [SG_READY_STATE].
Definition sg_ready_holding_keys : list string :=
  [SG_READY_ACTIVE; SG_READY_INPUT_1; SG_READY_INPUT_2].

(** The six reads of a cycle, in the order in which they are issued, each
    with the keys its block contributes. *)
Definition cycle_blocks : list (request * list string) :=
  [(energy_request, energy_keys);
   (system_state_request, system_state_keys);
   (system_values_request, system_values_keys);
   (system_paramter_request, system_paramter_keys);
   (sg_ready_request, sg_ready_keys);
   (sg_ready_holding_request, sg_ready_holding_keys)].

Definition cycle_requests : list request := cycle_blocks.*1.

(** The 16-bit word read as a signed integer. *)
Definition int16 (u : Z) : Z := if u <? 32768 then u else u - 65536.

(** ** Weakest preconditions for methods

    [wp m s Q E]: run from [s], the method [m] either returns a value and a
    state that satisfy [Q], or raises an exception in a state that satisfy
    [E]. *)

Definition wp {S A} (m : M S A) (s : S)
    (Q : A → S → Prop) (E : exn → S → Prop) : Prop :=
  match m s with
  | (Ok a, s') => Q a s'
  | (Raise e, s') => E e s'
  end.

Definition advance (n : nat) (d : BinaryPayloadDecoder) : BinaryPayloadDecoder :=
  {| _payload := _payload d; _pointer := (_pointer d + n)%nat |}.

Definition fresh_frame (c : coordinator) : frame :=
  {| self := c; result := ∅; decoder := {| _payload := []; _pointer := 0 |} |}.

(** A register as pymodbus delivers it: an unsigned 16-bit word. *)
Definition in_range (x : Z) : Prop := 0 ≤ x < 65536.

(** The bytes of a register list, two per register, high byte first. *)
Definition payload_of (regs : list Z) : list Z :=
  concat ((λ x, [x / 256; x mod 256]) <$> regs).

(** What the reader of one block leaves behind: the request is logged and
    nothing else of [self] changes; the keys of the block are all there, or
    none is when the response is an error; a reader raises only after a
    response that is not an error. *)
Definition block_post (req : request) (keys : list string)
    (c : coordinator) (d : dict) (c' : coordinator) : Prop :=
  c' = log_call req c ∧
  dom d = if isError (_client c req) then ∅ else list_to_set keys.

Definition block_exc (req : request)
    (c : coordinator) (e : exn) (c' : coordinator) : Prop :=
  c' = log_call req c ∧ isError (_client c req) = false.

(** The reader of the two SG Ready blocks: both requests are sent, the
    model name may change, the snapshot and the client do not. *)
Definition sg_ready_post (c : coordinator) (d : dict) (c' : coordinator) : Prop :=
  _client c' = _client c ∧ data c' = data c ∧
  calls c' = calls c ++ [sg_ready_request; sg_ready_holding_request] ∧
  dom d =
    (if isError (_client c sg_ready_holding_request)
     then ∅ else list_to_set sg_ready_holding_keys) ∪
    (if isError (_client c sg_ready_request)
     then ∅ else list_to_set sg_ready_keys).

Definition sg_ready_exc (c : coordinator) (e : exn) (c' : coordinator) : Prop :=
  _client c' = _client c ∧ data c' = data c ∧
  ((calls c' = calls c ++ [sg_ready_request] ∧
    isError (_client c sg_ready_request) = false) ∨
   (calls c' = calls c ++ [sg_ready_request; sg_ready_holding_request] ∧
    isError (_client c sg_ready_holding_request) = false)).

(** [CONSUMED_POWER] as the system-state reader computes it from the state word. *)
Definition consumed_power (average : number) (state : Z) : pyval :=
  if Z.testbit state 4 || Z.testbit state 5
  then pyval_of_number average else PyFloat 0.0.

(** The keys a block contributes in a cycle: all of them, or none when its
    read failed. *)
Definition block_dom (c : coordinator) (b : request * list string) : gset string :=
  if isError (_client c b.1) then ∅ else list_to_set b.2.

(** A cycle that returns: the six reads were all issued, in order, and the
    merged dictionary holds exactly the keys of the blocks that were read. *)
Definition cycle_post (c : coordinator) (d : dict) (c' : coordinator) : Prop :=
  _client c' = _client c ∧ data c' = data c ∧
  calls c' = calls c ++ cycle_requests ∧
  dom d = ⋃ (block_dom c <$> cycle_blocks).

(** A cycle that raises: it stopped right after the read of a block whose
    response was not an error, the reads before it having been issued. *)
Definition cycle_exc (c : coordinator) (e : exn) (c' : coordinator) : Prop :=
  _client c' = _client c ∧ data c' = data c ∧
  ∃ n req, cycle_requests !! n = Some req ∧
    calls c' = calls c ++ take (S n) cycle_requests ∧
    isError (_client c req) = false.

(** The keys [set_data] writes, per family. *)
Definition base_write_keys : list string :=
  [SG_READY_ACTIVE; SG_READY_INPUT_1; SG_READY_INPUT_2; OPERATION_MODE].

(** The scaled setpoints of the WPM family: key, write address, scale. *)
Definition scaled_write_map : list (string * Z * Z) :=
  [(COMFORT_TEMPERATURE_TARGET_HK1, 1501, 10);
   (ECO_TEMPERATURE_TARGET_HK1, 1502, 10);
   (HEATING_CURVE_RISE_HK1, 1503, 100);
   (COMFORT_TEMPERATURE_TARGET_HK2, 1504, 10);
   (ECO_TEMPERATURE_TARGET_HK2, 1505, 10);
   (HEATING_CURVE_RISE_HK2, 1506, 100);
   (DUALMODE_TEMPERATURE_HZG, 1508, 10);
   (COMFORT_WATER_TEMPERATURE_TARGET, 1509, 10);
   (ECO_WATER_TEMPERATURE_TARGET, 1510, 10);
   (DUALMODE_TEMPERATURE_WW, 1512, 10);
   (AREA_COOLING_TARGET_FLOW_TEMPERATURE, 1513, 10);
   (AREA_COOLING_TARGET_ROOM_TEMPERATURE, 1515, 10);
   (FAN_COOLING_TARGET_FLOW_TEMPERATURE, 1516, 10);
   (FAN_COOLING_TARGET_ROOM_TEMPERATURE, 1518, 10)].

Definition wpm_write_keys : list string :=
  base_write_keys ++ scaled_write_map.*1.*1 ++ [CIRCULATION_PUMP].

(** One refresh of the base coordinator, as Home Assistant runs it. *)
Definition refresh (average : number) (c : coordinator) : coordinator :=
  (async_refresh (Base._async_update_data average) c).2.

(** ** Devices used as concrete inputs *)

(** A base-family device whose energy block cannot be read; the other
    blocks answer. *)
Definition energy_down_client (r : request) : response :=
  match r with
  | ReadInputRegisters 2500 1 1 => ReadRegistersResponse [16]
  | ReadInputRegisters 500 40 1 => ReadRegistersResponse (215 :: replicate 39 200)
  | ReadHoldingRegisters 1500 19 1 => ReadRegistersResponse (2 :: replicate 18 0)
  | ReadInputRegisters 5000 2 1 => ReadRegistersResponse [1; 390]
  | ReadHoldingRegisters 4000 3 1 => ReadRegistersResponse [0; 0; 0]
  | _ => ExceptionResponse
  end.

Definition previous_snapshot : dict :=
  {[ PRODUCED_HEATING_TOTAL := PyInt 12345; ACTUAL_TEMPERATURE := PyFloat 20.5 ]}.

Definition energy_down : coordinator :=
  {| _model := "WPM 3"; _client := energy_down_client;
     calls := []; data := previous_snapshot |}.

(** A base-family device whose heating-circuit pressure sensor is not
    present: register 520 holds the sentinel 0x8000. *)
Definition pressure_absent_block : list Z := <[19%nat := 32768]> (replicate 40 215).

Definition pressure_absent_client (r : request) : response :=
  match r with
  | ReadInputRegisters 500 40 1 => ReadRegistersResponse pressure_absent_block
  | _ => energy_down_client r
  end.

Definition pressure_absent : coordinator :=
  {| _model := "WPM 3"; _client := pressure_absent_client;
     calls := []; data := ∅ |}.

(** WPM system-state blocks (registers 2501 to 2547).  In [idle_block] the
    heating and cooling bits are set, the error status is 5, no error is
    active, and every status word from 2509 on is "not applicable" except
    2517 (circulation pump, 0) and 2518 (second generator DHW, 1).
    [pump_block] is the same block with the pump of heating circuit 1
    (register 2509) reported as running. *)
Definition idle_block : list Z :=
  [272; 0; 0; 5; 0; 0; 32768; 0] ++ replicate 8 32768 ++ [0; 1] ++ replicate 29 32768.

Definition pump_block : list Z := <[8%nat := 1]> idle_block.

Definition wpm_client (state_block : list Z) (r : request) : response :=
  match r with
  | ReadInputRegisters 2500 47 1 => ReadRegistersResponse state_block
  | ReadInputRegisters 500 111 1 => ReadRegistersResponse (replicate 111 215)
  | ReadHoldingRegisters 1500 19 1 => ReadRegistersResponse (2 :: replicate 18 215)
  | ReadInputRegisters 3500 22 1 => ReadRegistersResponse (replicate 22 7)
  | ReadInputRegisters 5000 2 1 => ReadRegistersResponse [1; 391]
  | ReadHoldingRegisters 4000 3 1 => ReadRegistersResponse [0; 0; 0]
  | _ => ExceptionResponse
  end.

Definition wpm (state_block : list Z) : coordinator :=
  {| _model := "WPM 3i"; _client := wpm_client state_block;
     calls := []; data := ∅ |}.

Definition wpm_system_state_request : request := ReadInputRegisters 2500 47 1.

(** The keys the WPM system-state reader deals with, in block order. *)
Definition wpm_status_bit_keys : list string :=
  [PUMP_ON_HK1; PUMP_ON_HK2; HEAT_UP_PROGRAM; NHZ_STAGES_RUNNING; IS_HEATING;
   IS_HEATING_WATER; COMPRESSOR_ON; IS_SUMMER_MODE; IS_COOLING; EVAPORATOR_DEFROST].

(** The status words 2509 to 2515, which the reader looks up but never stores. *)
Definition wpm_unstored_keys : list string :=
  [HEATING_CIRCUIT_1_PUMP; HEATING_CIRCUIT_2_PUMP; HEATING_CIRCUIT_3_PUMP;
   BUFFER_1_CHARGING_PUMP; BUFFER_2_CHARGING_PUMP; DHW_CHARGING_PUMP; SOURCE_PUMP].

(** The optional status words 2517 to 2547: register index and key. *)
Definition wpm_optional_words : list (nat * string) :=
  [(16, CIRCULATION_PUMP); (17, SECOND_GENERATOR_DHW);
   (18, SECOND_GENERATOR_HEATING); (19, COOLING_MODE);
   (20, MIXER_OPEN_HTG_CIRCUIT_2); (21, MIXER_CLOSE_HTG_CIRCUIT_2);
   (22, MIXER_OPEN_HTG_CIRCUIT_3); (23, MIXER_CLOSE_HTG_CIRCUIT_3);
   (24, EMERGENCY_HEATING_1); (25, EMERGENCY_HEATING_2);
   (26, EMERGENCY_HEATING_1_2); (27, HEATING_CIRCUIT_4_PUMP);
   (28, HEATING_CIRCUIT_5_PUMP); (29, BUFFER_3_CHARGING_PUMP);
   (30, BUFFER_4_CHARGING_PUMP); (31, BUFFER_5_CHARGING_PUMP);
   (32, BUFFER_6_CHARGING_PUMP); (33, DIFF_CONTROLLER_1_PUMP);
   (34, DIFF_CONTROLLER_2_PUMP); (35, POOL_PRIMARY_PUMP);
   (36, POOL_SECONDARY_PUMP); (37, MIXER_OPEN_HTG_CIRCUIT_4);
   (38, MIXER_CLOSE_HTG_CIRCUIT_4); (39, MIXER_OPEN_HTG_CIRCUIT_5);
   (40, MIXER_CLOSE_HTG_CIRCUIT_5); (41, HEAT_PUMP_1_ON); (42, HEAT_PUMP_2_ON);
   (43, HEAT_PUMP_3_ON); (44, HEAT_PUMP_4_ON); (45, HEAT_PUMP_5_ON);
   (46, HEAT_PUMP_6_ON)]%nat.

Definition wpm_system_state_keys : list string :=
  wpm_status_bit_keys ++ [ERROR_STATUS; ACTIVE_ERROR] ++ wpm_unstored_keys
  ++ wpm_optional_words.*2.

(** The entries of a returned dictionary at the given keys. *)
Definition entries (keys : list string) (r : res dict) : res (list (option pyval)) :=
  match r with
  | Ok d => Ok ((λ k, d !! k) <$> keys)
  | Raise e => Raise e
  end.

(** The spec's [encode_scaled(value, scale)]: the product [value * scale]
    rounded to the nearest integer, halves away from zero. *)
Definition round_half_away (q : Q) : Z :=
  Z.sgn (Qnum q) * ((2 * Z.abs (Qnum q) + Z.pos (Qden q)) / (2 * Z.pos (Qden q))).

Definition encode_scaled (value : float) (scale : Z) : option Z :=
  round_half_away <$> Q_of_float (value * float_of_Z scale).

Definition wpm_system_values_request : request := ReadInputRegisters 500 111 1.

(** What the WPM cycle stores under a key: a scalar, or, under the two
    literal keys of the system-values and system-parameter readers, the list
    of the raw registers of their block. *)
Definition stored_ok (c : coordinator) (k : string) (v : pyval) : Prop :=
  scalar v = true ∨
  (k = "system_values" ∧
   v = PyList (registers (_client c wpm_system_values_request))) ∨
  (k = "system_paramaters" ∧
   v = PyList (registers (_client c system_paramter_request))).

(** A statement of a reader keeps a property of the [result] dictionary,
    and never changes the client of [self]. *)
Definition keeps (P : dict → Prop) {A} (m : Method A) : Prop :=
  ∀ s, P (result s) →
    wp m s (λ _ s', P (result s') ∧ _client (self s') = _client (self s))
           (λ _ _, True).

(** A reader returns a dictionary with the property it kept. *)
Definition returns (P : dict → Prop) (m : Method dict) : Prop :=
  ∀ s, P (result s) →
    wp m s (λ d s', P d ∧ _client (self s') = _client (self s))
           (λ _ _, True).

(** Register [i] of a block (0 when the block is too short). *)
Definition word (regs : list Z) (i : nat) : Z := default 0 (regs !! i).

(** [if b: result[key] = value], as an update of the dictionary. *)
Definition set_if (b : bool) (key : string) (value : pyval) (r : dict) : dict :=
  if b then <[key := value]> r else r.


(** A dictionary as the list of the updates that built it, latest first, and
    the lookup it gives. *)
Definition apply_updates (us : list (bool * string * pyval)) : dict :=
  foldr (λ u r, set_if u.1.1 u.1.2 u.2 r) ∅ us.

Fixpoint lookup_updates (us : list (bool * string * pyval)) (k : string)
    : option pyval :=
  match us with
  | [] => None
  | (b, key, value) :: us =>
      if bool_decide (key = k) && b then Some value else lookup_updates us k
  end.

(** What the base system-values reader is to return for a block, at the
    keys of [system_values_keys]: each temperature from its register, scaled
    by 0.1; pressure and volume stream scaled by 0.1 and divided by 10. *)
Definition base_system_values_decoded (regs : list Z) : list (option pyval) :=
  let scaled i := Some (Base.get_isg_scaled_value (int16 (word regs i))) in
  let hundredth i :=
    Some (PyFloat (float_of_Z (int16 (word regs i)) * 0.1 / float_of_Z 10)) in
  [scaled 0; scaled 1; scaled 2; scaled 3; scaled 4; scaled 5; scaled 6;
   scaled 7; scaled 9; scaled 10; scaled 11; scaled 17; scaled 18;
   hundredth 19; hundredth 20; scaled 21; scaled 22; scaled 35]%nat.
















(** What the readers of the base cycle are to store for an answered block,
    at the keys of the block, register by register. *)
Definition energy_decoded (regs : list Z) : list (option pyval) :=
  [Some (PyInt (word regs 0));
   Some (PyInt (word regs 2 * 1000 + word regs 1));
   Some (PyInt (word regs 3));
   Some (PyInt (word regs 5 * 1000 + word regs 4));
   Some (PyInt (word regs 10));
   Some (PyInt (word regs 12 * 1000 + word regs 11));
   Some (PyInt (word regs 13));
   Some (PyInt (word regs 15 * 1000 + word regs 14))]%nat.

Definition system_state_decoded (average : number) (regs : list Z)
    : list (option pyval) :=
  let state := word regs 0 in
  [Some (PyBool (Z.testbit state 4)); Some (PyBool (Z.testbit state 5));
   Some (consumed_power average state);
   Some (PyBool (Z.testbit state 7)); Some (PyBool (Z.testbit state 8))].

Definition system_paramter_decoded (regs : list Z) : list (option pyval) :=
  [Some (PyInt (word regs 0))].

Definition sg_ready_decoded (regs : list Z) : list (option pyval) :=
  [Some (PyInt (word regs 0))].

Definition sg_ready_holding_decoded (regs : list Z) : list (option pyval) :=
  [Some (PyInt (word regs 0)); Some (PyInt (word regs 1));
   Some (PyInt (word regs 2))]%nat.

(** The six blocks of a cycle with their keys and what is decoded from
    their registers. *)
Definition cycle_decoders (average : number)
    : list (request * list string * (list Z → list (option pyval))) :=
  [(energy_request, energy_keys, energy_decoded);
   (system_state_request, system_state_keys, system_state_decoded average);
   (system_values_request, system_values_keys, base_system_values_decoded);
   (system_paramter_request, system_paramter_keys, system_paramter_decoded);
   (sg_ready_request, sg_ready_keys, sg_ready_decoded);
   (sg_ready_holding_request, sg_ready_holding_keys, sg_ready_holding_decoded)].

(** [read_modbus_data] over the five reader methods [self] is bound to.  The
    class of [self] decides which readers run (the WPM coordinator overrides
    four of them), and a reader here is any method: one whose transport
    raises instead of answering is among them. *)
Definition read_modbus_data_of
    (read_modbus_energy read_modbus_system_state read_modbus_system_values
     read_modbus_system_paramter read_modbus_sg_ready : Coord dict) : Coord dict :=
  energy ← read_modbus_energy;
  system_state ← read_modbus_system_state;
  system_values ← read_modbus_system_values;
  system_paramter ← read_modbus_system_paramter;
  sg_ready ← read_modbus_sg_ready;
  let result :=
    dict_merge (dict_merge (dict_merge (dict_merge
      energy system_state) system_values) system_paramter) sg_ready in
  mret result.

(** The first of a sequence of readers to raise, with its exception and the
    coordinator it leaves; [None] when all of them return. *)
Fixpoint first_raise (readers : list (Coord dict)) (c : coordinator)
    : option (exn * coordinator) :=
  match readers with
  | [] => None
  | reader :: readers =>
      match reader c with
      | (Ok _, c') => first_raise readers c'
      | (Raise e, c') => Some (e, c')
      end
  end.

(** A reader whose transport raises [e] instead of answering the request. *)
Definition transport_raises (req : request) (e : exn) : Coord dict :=
  λ c, (Raise e, log_call req c).

(** ** Theorems *)

Section wp_rules.
Context {S : Type}.
Implicit Types s : S.

Lemma wp_ret {A} (a : A) s Q E : Q a s → wp (mret a) s Q E.
Proof. done. Qed.

Lemma wp_raise {A} e s (Q : A → S → Prop) E : E e s → wp (raise e) s Q E.
Proof. done. Qed.

Lemma wp_bind {A B} (m : M S A) (f : A → M S B) s Q E :
  wp m s (λ a s', wp (f a) s' Q E) E → wp (m ≫= f) s Q E.
Proof.
  unfold wp, mbind, M_bind. by destruct (m s) as [[a|e] s'].
Qed.

Lemma wp_mono {A} (m : M S A) s (Q Q' : A → S → Prop) (E E' : exn → S → Prop) :
  wp m s Q E → (∀ a s', Q a s' → Q' a s') → (∀ e s', E e s' → E' e s') →
  wp m s Q' E'.
Proof. unfold wp. destruct (m s) as [[a|e] s']; auto. Qed.

Lemma wp_modify (f : S → S) s Q E : Q () (f s) → wp (modify f) s Q E.
Proof. done. Qed.

Lemma wp_lift_result {A} (r : res A) s Q E :
  match r with Ok a => Q a s | Raise e => E e s end → wp (lift_result r) s Q E.
Proof. by destruct r. Qed.

End wp_rules.

Lemma wp_call {A} (m : Method A) c Q E :
  wp m (fresh_frame c) (λ a s, Q a (self s)) (λ e s, E e (self s)) →
  wp (call m) c Q E.
Proof.
  unfold wp, call, fresh_frame.
  by destruct (m _) as [[a|e] s'].
Qed.

Lemma wp_setitem key value s Q E :
  Q () (set_result (<[key := value]> (result s)) s) → wp (setitem key value) s Q E.
Proof. done. Qed.

Lemma wp_return_result s Q E : Q (result s) s → wp return_result s Q E.
Proof. done. Qed.

Lemma wp_read_input_registers slave address count s Q E :
  Q (_client (self s) (ReadInputRegisters address count slave))
    (set_self (log_call (ReadInputRegisters address count slave) (self s)) s) →
  wp (read_input_registers slave address count) s Q E.
Proof. done. Qed.

Lemma wp_read_holding_registers slave address count s Q E :
  Q (_client (self s) (ReadHoldingRegisters address count slave))
    (set_self (log_call (ReadHoldingRegisters address count slave) (self s)) s) →
  wp (read_holding_registers slave address count) s Q E.
Proof. done. Qed.

Lemma wp_write_register address value slave s Q E :
  Q (_client (self s) (WriteRegisters address value slave))
    (set_self (log_call (WriteRegisters address value slave) (self s)) s) →
  wp (write_register address value slave) s Q E.
Proof. done. Qed.

Lemma wp_data_setitem key value s Q E :
  Q () (set_self (set_data_ (<[key := value]> (data (self s))) (self s)) s) →
  wp (data_setitem key value) s Q E.
Proof. done. Qed.

Lemma wp_assign_model m s Q E :
  Q () (set_self (set_model m (self s)) s) → wp (assign_model m) s Q E.
Proof. done. Qed.

Lemma wp_skip_bytes n s Q E :
  Q () (set_decoder (advance n (decoder s)) s) → wp (skip_bytes n) s Q E.
Proof. done. Qed.

(** Whatever the registers are, [fromRegisters] touches the decoder only,
    and so does every decoding step. *)
Lemma wp_fromRegisters_any regs s (Q : unit → frame → Prop) (E : exn → frame → Prop) :
  (∀ d, Q () (set_decoder d s)) → E StructError s →
  wp (fromRegisters regs) s Q E.
Proof.
  intros HQ HE. unfold fromRegisters. destruct (mapM pack_H regs); [apply HQ | apply HE].
Qed.

Lemma wp_decode_with_any unpack s (Q : Z → frame → Prop) (E : exn → frame → Prop) :
  (∀ v, Q v (set_decoder (advance 2 (decoder s)) s)) →
  E StructError (set_decoder (advance 2 (decoder s)) s) →
  wp (decode_with unpack) s Q E.
Proof.
  intros HQ HE. unfold wp, decode_with.
  destruct (unpack _); [apply HQ | apply HE].
Qed.

Lemma wp_truediv_any x n s (Q : pyval → frame → Prop) (E : exn → frame → Prop) :
  (∀ f, Q (PyFloat f) s) → E TypeError s → wp (truediv x n) s Q E.
Proof. intros HQ HE. destruct x; first [apply HQ | apply HE]. Qed.

#[local] Arguments set_self _ _ /.
#[local] Arguments set_result _ _ /.
#[local] Arguments set_decoder _ _ /.
#[local] Arguments advance _ _ /.
#[local] Arguments fresh_frame _ /.

Ltac frame_simpl :=
  cbn [set_self set_result set_decoder self result decoder fresh_frame
       log_call set_model set_data_ _model _client calls data advance
       _payload _pointer isError registers negb Nat.add].

Ltac wp_prim :=
  lazymatch goal with
  | |- wp (mret _) _ _ _ => apply wp_ret
  | |- wp (raise _) _ _ _ => apply wp_raise
  | |- wp (setitem _ _) _ _ _ => apply wp_setitem
  | |- wp return_result _ _ _ => apply wp_return_result
  | |- wp (read_input_registers _ _ _) _ _ _ => apply wp_read_input_registers
  | |- wp (read_holding_registers _ _ _) _ _ _ => apply wp_read_holding_registers
  | |- wp (write_register _ _ _) _ _ _ => apply wp_write_register
  | |- wp (data_setitem _ _) _ _ _ => apply wp_data_setitem
  | |- wp (assign_model _) _ _ _ => apply wp_assign_model
  | |- wp (skip_bytes _) _ _ _ => apply wp_skip_bytes
  end.

(** One step of symbolic execution; decoded values are left arbitrary. *)
Ltac wp_binds :=
  repeat lazymatch goal with |- wp (_ ≫= _) _ _ _ => apply wp_bind end.

Ltac wp_any :=
  wp_binds;
  lazymatch goal with
  | |- wp (fromRegisters _) _ _ _ => apply wp_fromRegisters_any; [intros ?d|]
  | |- wp decode_16bit_uint _ _ _ => apply wp_decode_with_any; [intros ?v|]
  | |- wp decode_16bit_int _ _ _ => apply wp_decode_with_any; [intros ?v|]
  | |- wp (truediv _ _) _ _ _ => apply wp_truediv_any; [intros ?f|]
  | |- _ => wp_prim
  end; frame_simpl.

(** *** Bits, bytes and alignment *)

Lemma bit_set_testbit state n : 0 ≤ n → bit_set state n = Z.testbit state n.
Proof.
  intros Hn. unfold bit_set. rewrite Z.shiftl_1_l.
  destruct (Z.testbit state n) eqn:Hb.
  - apply negb_true_iff, Z.eqb_neq. intros H0.
    assert (Z.testbit (Z.land state (2 ^ n)) n = false) as Hf
      by (rewrite H0; apply Z.bits_0).
    rewrite Z.land_spec, Hb, Z.pow2_bits_true in Hf by done. done.
  - apply negb_false_iff, Z.eqb_eq, Z.bits_inj'. intros m Hm.
    rewrite Z.land_spec, Z.bits_0.
    destruct (decide (m = n)) as [->|Hne]; [by rewrite Hb|].
    by rewrite Z.pow2_bits_false, andb_false_r.
Qed.

Lemma pack_H_Some x chunk : pack_H x = Some chunk ↔ in_range x ∧ chunk = [x / 256; x mod 256].
Proof.
  unfold pack_H, in_range.
  destruct (0 <=? x) eqn:H1, (x <? 65536) eqn:H2; simpl; split;
    try (intros [= <-]; split; [lia|done]); try (intros [? ->]; done || lia);
    try done; intros [? ?]; lia.
Qed.

Lemma mapM_pack_H regs chunks :
  mapM pack_H regs = Some chunks ↔
  Forall in_range regs ∧ chunks = (λ x, [x / 256; x mod 256]) <$> regs.
Proof.
  rewrite mapM_Some. split.
  - induction 1 as [|x chunk regs chunks Hx _ [IH1 IH2]]; [done|].
    apply pack_H_Some in Hx as [? ->]. split; [by constructor|]. by rewrite IH2.
  - intros [Hall ->]. induction Hall as [|x regs Hx _ IH]; constructor; [|done].
    by apply pack_H_Some.
Qed.

Lemma unpack_H_pack x : in_range x → unpack_H [x / 256; x mod 256] = Some x.
Proof.
  intros _. unfold unpack_H. f_equal.
  pose proof (Z.div_mod x 256). lia.
Qed.

(** The words of a payload lie where the register list has them: two bytes
    per register, so the word at byte offset [2 * i] is register [i]. *)
Lemma slice_payload_of regs i :
  slice (payload_of regs) (2 * i) (2 * i + 2) =
  match regs !! i with Some x => [x / 256; x mod 256] | None => [] end.
Proof.
  unfold slice, payload_of. replace (2 * i + 2 - 2 * i)%nat with 2%nat by lia.
  revert i. induction regs as [|x regs IH]; intros i.
  - cbn. by rewrite drop_nil.
  - destruct i as [|i]; [done|].
    replace (2 * S i)%nat with (S (S (2 * i))) by lia. apply IH.
Qed.

Lemma wp_fromRegisters regs s (Q : unit → frame → Prop) (E : exn → frame → Prop) :
  (Forall in_range regs →
   Q () (set_decoder {| _payload := payload_of regs; _pointer := 0 |} s)) →
  E StructError s →
  wp (fromRegisters regs) s Q E.
Proof.
  intros HQ HE. unfold fromRegisters.
  destruct (mapM pack_H regs) as [chunks|] eqn:Hm; [|apply HE].
  apply mapM_pack_H in Hm as [Hall ->]. by apply HQ.
Qed.

Lemma decode_with_at unpack regs i s :
  decoder s = {| _payload := payload_of regs; _pointer := (2 * i)%nat |} →
  decode_with unpack s =
  (match unpack (match regs !! i with
                 | Some x => [x / 256; x mod 256] | None => [] end) with
   | Some v => Ok v
   | None => Raise StructError
   end, set_decoder (advance 2 (decoder s)) s).
Proof.
  intros Hd. unfold decode_with. rewrite Hd. cbn [_payload _pointer advance].
  replace (2 * i + 2 - 2)%nat with (2 * i)%nat by lia.
  rewrite slice_payload_of. by destruct (unpack _).
Qed.

Lemma wp_decode_16bit_uint_at regs i s (Q : Z → frame → Prop) (E : exn → frame → Prop) :
  decoder s = {| _payload := payload_of regs; _pointer := (2 * i)%nat |} →
  Forall in_range regs →
  match regs !! i with
  | Some x => Q x (set_decoder (advance 2 (decoder s)) s)
  | None => E StructError (set_decoder (advance 2 (decoder s)) s)
  end →
  wp decode_16bit_uint s Q E.
Proof.
  intros Hd Hall H. unfold wp, decode_16bit_uint. rewrite (decode_with_at _ regs i) by done.
  destruct (regs !! i) as [x|] eqn:Hx; [|done].
  rewrite unpack_H_pack; [done|]. by eapply Forall_lookup_1.
Qed.

Lemma wp_decode_16bit_int_at regs i s (Q : Z → frame → Prop) (E : exn → frame → Prop) :
  decoder s = {| _payload := payload_of regs; _pointer := (2 * i)%nat |} →
  Forall in_range regs →
  match regs !! i with
  | Some x => Q (int16 x) (set_decoder (advance 2 (decoder s)) s)
  | None => E StructError (set_decoder (advance 2 (decoder s)) s)
  end →
  wp decode_16bit_int s Q E.
Proof.
  intros Hd Hall H. unfold wp, decode_16bit_int. rewrite (decode_with_at _ regs i) by done.
  destruct (regs !! i) as [x|] eqn:Hx; [|done].
  unfold unpack_h. rewrite unpack_H_pack; [done|]. by eapply Forall_lookup_1.
Qed.

(** *** The readers of the base coordinator, one block each *)

Ltac wp_response :=
  lazymatch goal with
  | |- wp (if negb (isError (_client ?c ?r)) then _ else _) _ _ _ =>
      let regs := fresh "regs" in
      destruct (_client c r) as [regs|] eqn:?; frame_simpl
  end.

Ltac wp_block :=
  unfold block_post, block_exc, energy_request, system_state_request,
    system_values_request, system_paramter_request, sg_ready_request,
    sg_ready_holding_request;
  wp_any; wp_binds; wp_response;
  [|repeat wp_any; done].

Lemma read_modbus_energy_spec c :
  wp (call Base.read_modbus_energy) c
    (block_post energy_request energy_keys c) (block_exc energy_request c).
Proof.
  apply wp_call. unfold Base.read_modbus_energy.
  wp_block.
  repeat wp_any; try done.
Qed.

Ltac wp_decode_at lem :=
  lazymatch goal with
  | |- wp _ (Build_frame _ _ (Build_BinaryPayloadDecoder (payload_of ?regs) ?p)) _ _ =>
      let i := eval vm_compute in (Nat.div2 p) in
      apply (lem regs i); [reflexivity | assumption |];
      let v := eval cbn in (regs !! i) in
      change (regs !! i) with v; cbv beta iota
  end.

(** One step of symbolic execution over a payload whose registers are known. *)
Ltac wp_at :=
  wp_binds;
  lazymatch goal with
  | |- wp (fromRegisters _) _ _ _ => apply wp_fromRegisters; [intros ?Hrange|]
  | |- wp decode_16bit_uint _ _ _ => wp_decode_at wp_decode_16bit_uint_at
  | |- wp decode_16bit_int _ _ _ => wp_decode_at wp_decode_16bit_int_at
  | |- _ => wp_prim
  end; frame_simpl.

Ltac lookup_inserts :=
  repeat first [rewrite lookup_insert_eq | rewrite lookup_insert_ne by done];
  try rewrite lookup_empty.

Lemma read_modbus_system_state_spec average c :
  wp (call (Base.read_modbus_system_state average)) c
    (λ d c', block_post system_state_request system_state_keys c d c' ∧
       ∀ state rest,
         _client c system_state_request = ReadRegistersResponse (state :: rest) →
         d !! CONSUMED_POWER = Some (consumed_power average state))
    (block_exc system_state_request c).
Proof.
  apply wp_call. unfold Base.read_modbus_system_state. wp_block.
  wp_at; [|done]. destruct regs as [|state rest]; repeat wp_at; [done|].
  split; [done|]. intros ? ? [= <- <-]. lookup_inserts.
  unfold consumed_power. rewrite !bit_set_testbit by done.
  by rewrite orb_comm.
Qed.

Lemma read_modbus_system_values_spec c :
  wp (call Base.read_modbus_system_values) c
    (λ d c', block_post system_values_request system_values_keys c d c' ∧
       ∀ r0 rest,
         _client c system_values_request = ReadRegistersResponse (r0 :: rest) →
         d !! ACTUAL_TEMPERATURE = Some (Base.get_isg_scaled_value (int16 r0)))
    (block_exc system_values_request c).
Proof.
  apply wp_call. unfold Base.read_modbus_system_values. wp_block.
  wp_at; [|done]. destruct regs as [|r0 rest]; wp_at; [done|].
  repeat wp_any; try done.
  split; [done|]. intros ? ? [= <- <-]. by lookup_inserts.
Qed.

Lemma read_modbus_system_paramter_spec c :
  wp (call Base.read_modbus_system_paramter) c
    (block_post system_paramter_request system_paramter_keys c)
    (block_exc system_paramter_request c).
Proof.
  apply wp_call. unfold Base.read_modbus_system_paramter. wp_block.
  repeat wp_any; done.
Qed.

Ltac wp_if :=
  wp_binds;
  lazymatch goal with
  | |- wp (if negb (isError (_client _ _)) then _ else _) _ _ _ => wp_response
  | |- wp (if ?b then _ else _) _ _ _ => destruct b eqn:?
  end.

Lemma read_modbus_sg_ready_spec c :
  wp (call Base.read_modbus_sg_ready) c (sg_ready_post c) (sg_ready_exc c).
Proof.
  apply wp_call. unfold Base.read_modbus_sg_ready, sg_ready_post, sg_ready_exc,
    sg_ready_request, sg_ready_holding_request.
  repeat first [wp_any | wp_if].
  all: rewrite <- ?app_assoc; cbn [app]; rewrite ?dom_insert_L, ?dom_empty_L.
  all: first [done | by auto].
Qed.

(** *** One poll cycle of the base coordinator *)

Lemma cycle_keys_disjoint i j bi bj k :
  cycle_blocks !! i = Some bi → cycle_blocks !! j = Some bj → i ≠ j →
  k ∈ bi.2 → k ∉ bj.2.
Proof.
  intros Hi Hj Hne Hk.
  assert (Forall (λ k, k ∉ bj.2) bi.2) as Hall; [|by eapply Forall_forall in Hall].
  destruct i as [|[|[|[|[|[|i]]]]]]; cbn in Hi; [injection Hi as <-..|done];
    (destruct j as [|[|[|[|[|[|j]]]]]]; cbn in Hj; [injection Hj as <-..|done]);
    first [done | by apply (bool_decide_unpack _); vm_compute].
Qed.

(** A key of a block is in the merged dictionary exactly when the block
    was read. *)
Lemma lookup_cycle_block c (d : dict) req keys k :
  dom d = ⋃ (block_dom c <$> cycle_blocks) →
  (req, keys) ∈ cycle_blocks → k ∈ keys →
  if isError (_client c req) then d !! k = None else is_Some (d !! k).
Proof.
  intros Hdom [i Hi]%list_elem_of_lookup Hk.
  assert (k ∈ dom d ↔ isError (_client c req) = false) as Hiff.
  { rewrite Hdom, elem_of_union_list. split.
    - intros (X & [b [-> [j Hj]%list_elem_of_lookup]]%list_elem_of_fmap & HkX).
      unfold block_dom in HkX. destruct (isError (_client c b.1)) eqn:Hb; [by apply elem_of_empty in HkX|].
      destruct (decide (i = j)) as [->|Hne]; [by simplify_eq|].
      apply elem_of_list_to_set in HkX.
      by destruct (cycle_keys_disjoint i j (req, keys) b k).
    - intros Herr. exists (block_dom c (req, keys)). split.
      + apply list_elem_of_fmap. exists (req, keys). split; [done|].
        by eapply list_elem_of_lookup_2.
      + unfold block_dom. cbn. rewrite Herr. by apply elem_of_list_to_set. }
  destruct (isError (_client c req)).
  - apply not_elem_of_dom. rewrite Hiff. done.
  - apply elem_of_dom, Hiff. done.
Qed.

Lemma union_blocks (A1 A2 A3 A4 A5 A6 : gset string) :
  (A6 ∪ A5) ∪ (A4 ∪ (A3 ∪ (A2 ∪ A1))) = A1 ∪ (A2 ∪ (A3 ∪ (A4 ∪ (A5 ∪ (A6 ∪ ∅))))).
Proof.
  apply set_eq. intros x. rewrite !elem_of_union, elem_of_empty. tauto.
Qed.

(** A key outside the block of a reader is not in what the reader returns. *)
Ltac key_absent H :=
  apply not_elem_of_dom; rewrite H;
  repeat destruct (isError _);
  rewrite ?not_elem_of_union, ?elem_of_list_to_set; repeat split;
  first [apply not_elem_of_empty | by apply (bool_decide_unpack _); vm_compute].

Lemma read_modbus_data_spec average c :
  wp (Base.read_modbus_data average) c
    (λ d c', cycle_post c d c' ∧
       (∀ state rest,
          _client c system_state_request = ReadRegistersResponse (state :: rest) →
          d !! CONSUMED_POWER = Some (consumed_power average state)) ∧
       (∀ r0 rest,
          _client c system_values_request = ReadRegistersResponse (r0 :: rest) →
          d !! ACTUAL_TEMPERATURE = Some (Base.get_isg_scaled_value (int16 r0))))
    (cycle_exc c).
Proof.
  unfold Base.read_modbus_data, cycle_exc.
  apply wp_bind. eapply wp_mono; [apply read_modbus_energy_spec| |];
    cbv beta; [intros de c1 [-> Hde]|intros e c1 [-> Herr]]; cycle 1.
  { repeat split; try done. exists 0%nat, energy_request. by repeat split. }
  apply wp_bind. eapply wp_mono; [apply read_modbus_system_state_spec| |];
    cbv beta; [intros ds c2 [[-> Hds] Hpower]|intros e c2 [-> Herr]]; cycle 1.
  { repeat split; try done. exists 1%nat, system_state_request.
    repeat split; try done. cbn. by rewrite <- app_assoc. }
  apply wp_bind. eapply wp_mono; [apply read_modbus_system_values_spec| |];
    cbv beta; [intros dv c3 [[-> Hdv] Htemp]|intros e c3 [-> Herr]]; cycle 1.
  { repeat split; try done. exists 2%nat, system_values_request.
    repeat split; try done. cbn. by rewrite <- !app_assoc. }
  apply wp_bind. eapply wp_mono; [apply read_modbus_system_paramter_spec| |];
    cbv beta; [intros dp c4 [-> Hdp]|intros e c4 [-> Herr]]; cycle 1.
  { repeat split; try done. exists 3%nat, system_paramter_request.
    repeat split; try done. cbn. by rewrite <- !app_assoc. }
  apply wp_bind. eapply wp_mono; [apply read_modbus_sg_ready_spec| |];
    cbv beta; [intros dg c5 (Hcl & Hdata & Hcalls & Hdg)
              |intros e c5 (Hcl & Hdata & Hcalls)]; cycle 1.
  { repeat split; try done.
    destruct Hcalls as [[Hcalls Herr]|[Hcalls Herr]].
    - exists 4%nat, sg_ready_request. repeat split; try done.
      rewrite Hcalls. cbn. by rewrite <- !app_assoc.
    - exists 5%nat, sg_ready_holding_request. repeat split; try done.
      rewrite Hcalls. cbn. by rewrite <- !app_assoc. }
  cbn [_client log_call] in *. apply wp_ret.
  split; [repeat split; try done|split].
  - rewrite Hcalls. cbn. by rewrite <- !app_assoc.
  - unfold dict_merge. rewrite !dom_union_L, Hde, Hds, Hdv, Hdp, Hdg.
    apply union_blocks.
  - intros state rest Hst. unfold dict_merge.
    rewrite (lookup_union_r dg) by key_absent Hdg.
    rewrite (lookup_union_r dp) by key_absent Hdp.
    rewrite (lookup_union_r dv) by key_absent Hdv.
    apply lookup_union_Some_l. by eapply Hpower.
  - intros r0 rest Hr0. unfold dict_merge.
    rewrite (lookup_union_r dg) by key_absent Hdg.
    rewrite (lookup_union_r dp) by key_absent Hdp.
    apply lookup_union_Some_l. by eapply Htemp.
Qed.

(** *** Results of methods as equations *)

Lemma wp_total {S A} (m : M S A) s (Q : A → S → Prop) :
  wp m s Q (λ _ _, False) → ∃ a s', m s = (Ok a, s') ∧ Q a s'.
Proof. unfold wp. destruct (m s) as [[a|e] s']; [eauto|done]. Qed.

Lemma wp_run {S A} (m : M S A) s Q E :
  wp m s Q E →
  match m s with (Ok a, s') => Q a s' | (Raise e, s') => E e s' end.
Proof. done. Qed.

Lemma wp_fromRegisters_ok regs s (Q : unit → frame → Prop) (E : exn → frame → Prop) :
  Forall in_range regs →
  Q () (set_decoder {| _payload := payload_of regs; _pointer := 0 |} s) →
  wp (fromRegisters regs) s Q E.
Proof.
  intros Hall HQ. unfold wp, fromRegisters.
  by rewrite (proj2 (mapM_pack_H regs _) (conj Hall eq_refl)).
Qed.

(** *** The system-state block of the base family *)

(** C9: whenever the base-family system-state block is read, the reader
    returns, and CONSUMED_POWER in what it returns (and in the merged result
    of a cycle that returns) comes from no register: it is the constant
    HEATPUMPT_AVERAGE_POWER when bit 4 (heating) or bit 5 (water heating) of
    the state word is set, and 0.0 otherwise. *)
Theorem consumed_power_from_state_bits average c state rest :
  _client c system_state_request = ReadRegistersResponse (state :: rest) →
  Forall in_range (state :: rest) →
  (∃ d, call (Base.read_modbus_system_state average) c
          = (Ok d, log_call system_state_request c) ∧
        d !! CONSUMED_POWER =
          Some (if Z.testbit state 4 || Z.testbit state 5
                then pyval_of_number average else PyFloat 0.0)) ∧
  (∀ d c', Base.read_modbus_data average c = (Ok d, c') →
        d !! CONSUMED_POWER =
          Some (if Z.testbit state 4 || Z.testbit state 5
                then pyval_of_number average else PyFloat 0.0)).
Proof.
  intros Hresp Hrange. split.
  - assert (wp (call (Base.read_modbus_system_state average)) c
      (λ d c', c' = log_call system_state_request c ∧
               d !! CONSUMED_POWER = Some (consumed_power average state))
      (λ _ _, False)) as (d & c' & Hrun & -> & Hd)%wp_total; [|by eauto].
    apply wp_call. unfold Base.read_modbus_system_state, system_state_request in *.
    wp_any. rewrite Hresp. frame_simpl. wp_binds.
    apply wp_fromRegisters_ok; [done|]. frame_simpl. repeat wp_at.
    split; [done|]. lookup_inserts.
    unfold consumed_power. rewrite !bit_set_testbit by done. by rewrite orb_comm.
  - intros d c' Hrun. pose proof (wp_run _ _ _ _ (read_modbus_data_spec average c)) as H.
    rewrite Hrun in H. destruct H as (_ & Hpower & _). by eapply Hpower.
Qed.

Lemma consumed_power_from_state_bits_witness :
  ∃ d, call (Base.read_modbus_system_state (NInt 2500)) energy_down
         = (Ok d, log_call system_state_request energy_down) ∧
       d !! CONSUMED_POWER = Some (PyInt 2500).
Proof.
  apply (consumed_power_from_state_bits (NInt 2500) energy_down 16 []).
  - reflexivity.
  - repeat constructor; vm_compute; done.
Defined.

(** *** Poll cycles and the snapshot *)

Lemma refresh_data average c :
  data (refresh average c) =
  match Base.read_modbus_data average c with
  | (Ok d, _) => d
  | (Raise _, _) => data c
  end.
Proof.
  pose proof (wp_run _ _ _ _ (read_modbus_data_spec average c)) as H.
  unfold refresh, async_refresh, Base._async_update_data.
  destruct (Base.read_modbus_data average c) as [[d|e] c']; cbn; [done|].
  by destruct H as (_ & -> & _).
Qed.

(** C3, as the spec states it, fails: with the energy block unreadable, a key
    of that block which the previous snapshot held does not keep its value
    over a refresh. *)
Lemma snapshot_not_merged_over :
  ¬ (∀ average c req keys k,
       (req, keys) ∈ cycle_blocks → k ∈ keys →
       isError (_client c req) = true →
       data (refresh average c) !! k = data c !! k).
Proof.
  intros Hclaim.
  specialize (Hclaim (NInt 2500) energy_down energy_request energy_keys
                PRODUCED_HEATING_TOTAL).
  assert (data (refresh (NInt 2500) energy_down) !! PRODUCED_HEATING_TOTAL = None)
    as Hnew by (vm_compute; reflexivity).
  rewrite Hnew in Hclaim.
  assert (data energy_down !! PRODUCED_HEATING_TOTAL = Some (PyInt 12345))
    as Hold by (vm_compute; reflexivity).
  rewrite Hold in Hclaim.
  discriminate Hclaim; [constructor| |reflexivity].
  apply list_elem_of_In. cbn. auto.
Qed.

(** C3, amended: a refresh replaces the snapshot.  When the cycle returns,
    the new snapshot is the dictionary built from this cycle's reads alone:
    every key of a block whose read failed is absent from it, whatever the
    previous snapshot held, and every key of a block that was read is
    present; in particular PRODUCED_HEATING_TOTAL is absent after a failed
    read of the energy block, while ACTUAL_TEMPERATURE holds the value
    decoded from the first register of the system-values block.  When the
    cycle raises, the previous snapshot is kept whole. *)
Theorem refresh_replaces_snapshot average c :
  match Base.read_modbus_data average c with
  | (Ok d, _) =>
      data (refresh average c) = d ∧
      (∀ req keys k, (req, keys) ∈ cycle_blocks → k ∈ keys →
         if isError (_client c req)
         then data (refresh average c) !! k = None
         else is_Some (data (refresh average c) !! k)) ∧
      (isError (_client c energy_request) = true →
         data (refresh average c) !! PRODUCED_HEATING_TOTAL = None) ∧
      (∀ r0 rest,
         _client c system_values_request = ReadRegistersResponse (r0 :: rest) →
         data (refresh average c) !! ACTUAL_TEMPERATURE =
           Some (Base.get_isg_scaled_value (int16 r0)))
  | (Raise _, _) => data (refresh average c) = data c
  end.
Proof.
  rewrite refresh_data.
  pose proof (wp_run _ _ _ _ (read_modbus_data_spec average c)) as H.
  destruct (Base.read_modbus_data average c) as [[d|e] c']; [|done].
  destruct H as ((_ & _ & _ & Hdom) & _ & Htemp).
  split; [done|]. split; [|split; [|done]].
  - intros req keys k Hin Hk. by eapply lookup_cycle_block.
  - intros Herr.
    pose proof (lookup_cycle_block c d energy_request energy_keys
                  PRODUCED_HEATING_TOTAL Hdom) as Hk.
    rewrite Herr in Hk. apply Hk; [constructor|].
    apply list_elem_of_In. cbn. auto.
Qed.

(** The reader of a block whose read fails returns the empty dictionary. *)
Lemma failed_block_contributes_nothing average c :
  (isError (_client c energy_request) = true →
     call Base.read_modbus_energy c = (Ok ∅, log_call energy_request c)) ∧
  (isError (_client c system_state_request) = true →
     call (Base.read_modbus_system_state average) c
       = (Ok ∅, log_call system_state_request c)) ∧
  (isError (_client c system_values_request) = true →
     call Base.read_modbus_system_values c
       = (Ok ∅, log_call system_values_request c)) ∧
  (isError (_client c system_paramter_request) = true →
     call Base.read_modbus_system_paramter c
       = (Ok ∅, log_call system_paramter_request c)).
Proof.
  unfold call, energy_request, system_state_request, system_values_request,
    system_paramter_request.
  repeat split; intros Herr.
  all: unfold Base.read_modbus_energy, Base.read_modbus_system_state,
    Base.read_modbus_system_values, Base.read_modbus_system_paramter,
    mbind, M_bind, read_input_registers, read_holding_registers, on_self; cbn.
  all: destruct (_client c _); [discriminate Herr|reflexivity].
Qed.

(** *** The write path *)

Lemma bool_decide_key_false (key k : string) (keys : list string) :
  key ∉ keys → k ∈ keys → bool_decide (key = k) = false.
Proof. intros Hnot Hin. apply bool_decide_eq_false_2. by intros ->. Qed.

Ltac in_keys := apply list_elem_of_In; cbn; tauto.

(** C6: [set_data] with OPERATION_MODE issues exactly one write-registers
    call, to address 1500 on unit 1 with the value passed in, and stores that
    value, as passed, under OPERATION_MODE in the snapshot; no other key of
    the snapshot changes.  With value 1 the write carries 1 and the
    snapshot's OPERATION_MODE is 1.  Both families behave so. *)
Theorem set_operation_mode_writes_once value c :
  let c' := set_data_ (<[OPERATION_MODE := pyval_of_number value]> (data c))
              (log_call (WriteRegisters 1500 value 1) c) in
  call (Base.set_data OPERATION_MODE value) c = (Ok (), c') ∧
  call (WPM.set_data OPERATION_MODE value) c = (Ok (), c') ∧
  calls c' = calls c ++ [WriteRegisters 1500 value 1] ∧
  data c' !! OPERATION_MODE = Some (pyval_of_number value) ∧
  (∀ k, k ≠ OPERATION_MODE → data c' !! k = data c !! k) ∧
  (value = NInt 1 → data c' !! OPERATION_MODE = Some (PyInt 1)).
Proof.
  cbv zeta. split; [reflexivity|]. split; [reflexivity|]. cbn [calls data set_data_ log_call].
  split; [done|]. split; [apply lookup_insert_eq|]. split.
  - intros k Hk. by apply lookup_insert_ne.
  - intros ->. apply lookup_insert_eq.
Qed.

(** C7: for a key that is not in the write map of the family, [set_data]
    sends nothing to the client, leaves the snapshot (and all of the
    coordinator) as it was, and returns normally. *)
Theorem set_data_unknown_key_noop key value c :
  (key ∉ base_write_keys → call (Base.set_data key value) c = (Ok (), c)) ∧
  (key ∉ wpm_write_keys → call (WPM.set_data key value) c = (Ok (), c)).
Proof.
  split; intros Hkey.
  - unfold Base.set_data.
    rewrite !(bool_decide_key_false key _ base_write_keys) by (done || in_keys).
    by destruct c.
  - unfold WPM.set_data.
    rewrite !(bool_decide_key_false key _ wpm_write_keys) by (done || in_keys).
    by destruct c.
Qed.

Lemma set_data_unknown_key_noop_witness :
  call (Base.set_data "unknown_field" (NInt 5)) energy_down = (Ok (), energy_down) ∧
  call (WPM.set_data "unknown_field" (NInt 5)) energy_down = (Ok (), energy_down).
Proof.
  destruct (set_data_unknown_key_noop "unknown_field" (NInt 5) energy_down) as [Hb Hw].
  split; [apply Hb|apply Hw]; by apply (bool_decide_unpack _); vm_compute.
Defined.

(** C10: [async_reset_heatpump] issues exactly one write-registers call, of
    value 3 to holding register 1519 on unit 1, and changes nothing else: the
    snapshot is as it was. *)
Theorem reset_heatpump_writes_once c :
  call WPM.async_reset_heatpump c
    = (Ok (), log_call (WriteRegisters 1519 (NInt 3) 1) c) ∧
  calls (log_call (WriteRegisters 1519 (NInt 3) 1) c)
    = calls c ++ [WriteRegisters 1519 (NInt 3) 1] ∧
  data (log_call (WriteRegisters 1519 (NInt 3) 1) c) = data c.
Proof. done. Qed.

(** *** Sentinels *)

Lemma wp_getitem key s (Q : pyval → frame → Prop) (E : exn → frame → Prop) :
  match result s !! key with
  | Some v => Q v s
  | None => E (KeyError key) s
  end →
  wp (getitem key) s Q E.
Proof. unfold wp, getitem. by destruct (result s !! key). Qed.

Lemma wp_truediv_None n s (Q : pyval → frame → Prop) (E : exn → frame → Prop) :
  E TypeError s → wp (truediv PyNone n) s Q E.
Proof. done. Qed.

(** The sentinel word decodes to the absent value, whatever the divisor. *)
Lemma scaled_sentinel_absent :
  int16 32768 = -32768 ∧
  Base.get_isg_scaled_value (-32768) = PyNone ∧
  ∀ factor, WPM.get_isg_scaled_value (-32768) factor = PyNone.
Proof. done. Qed.

Ltac explicit_list regs Hlen :=
  repeat (destruct regs as [|? regs]; [discriminate Hlen|]);
  destruct regs; [|discriminate Hlen].

(** In the base family the absent value of HEATER_PRESSURE is divided by 10:
    whenever register 520 holds the sentinel, the reader of the system-values
    block raises [TypeError]. *)
Lemma pressure_sentinel_raises c regs :
  _client c system_values_request = ReadRegistersResponse regs →
  Forall in_range regs → length regs = 40%nat → regs !! 19%nat = Some 32768 →
  call Base.read_modbus_system_values c
    = (Raise TypeError, log_call system_values_request c).
Proof.
  intros Hresp Hrange Hlen H19.
  assert (wp (call Base.read_modbus_system_values) c (λ _ _, False)
            (λ e c', e = TypeError ∧ c' = log_call system_values_request c)) as H.
  { apply wp_call. unfold Base.read_modbus_system_values, system_values_request in *.
    wp_any. rewrite Hresp. frame_simpl. wp_binds.
    apply wp_fromRegisters_ok; [done|]. frame_simpl.
    explicit_list regs Hlen. injection H19 as ->.
    do 29 wp_at. wp_binds.
    change (Base.get_isg_scaled_value (int16 32768)) with PyNone.
    by apply wp_truediv_None. }
  apply wp_run in H.
  destruct (call Base.read_modbus_system_values c) as [[d|e] c']; [done|].
  by destruct H as [-> ->].
Qed.

(** C2 (a defect of the code): the base family reads a system-values block
    whose register 520 (HEATER_PRESSURE) holds the sentinel 0x8000; the
    scaled value is absent, and dividing it by 10 raises [TypeError] out of
    the reader, where the claim has the field absent and no exception. *)
Theorem heater_pressure_sentinel_raises :
  pressure_absent_block !! 19%nat = Some 32768 ∧
  Base.get_isg_scaled_value (int16 32768) = PyNone ∧
  call Base.read_modbus_system_values pressure_absent
    = (Raise TypeError, log_call system_values_request pressure_absent) ∧
  (Base._async_update_data (NInt 2500) pressure_absent).1 = Raise UpdateFailed.
Proof. apply conj; [|apply conj; [|apply conj]]; vm_compute; reflexivity. Qed.

(** In the WPM family the status words 2509 to 2515 are looked up in the
    result instead of being stored in it: whenever register 2509 is
    applicable (not 32768), the reader of the system-state block raises
    [KeyError]. *)
Lemma heating_circuit_pump_raises c regs w :
  _client c wpm_system_state_request = ReadRegistersResponse regs →
  Forall in_range regs → length regs = 47%nat →
  regs !! 8%nat = Some w → w ≠ 32768 →
  call WPM.read_modbus_system_state c
    = (Raise (KeyError HEATING_CIRCUIT_1_PUMP), log_call wpm_system_state_request c).
Proof.
  intros Hresp Hrange Hlen H8 Hw.
  assert (wp (call WPM.read_modbus_system_state) c (λ _ _, False)
            (λ e c', e = KeyError HEATING_CIRCUIT_1_PUMP ∧
                     c' = log_call wpm_system_state_request c)) as H.
  { apply wp_call. unfold WPM.read_modbus_system_state, wpm_system_state_request in *.
    wp_any. rewrite Hresp. frame_simpl. wp_binds.
    apply wp_fromRegisters_ok; [done|]. frame_simpl.
    explicit_list regs Hlen. injection H8 as ->.
    do 16 wp_at. wp_if; do 3 wp_at; wp_binds.
    all: rewrite (proj2 (Z.eqb_neq w 32768) Hw); cbn [negb]; wp_binds.
    all: apply wp_getitem; frame_simpl; lookup_inserts; done. }
  apply wp_run in H.
  destruct (call WPM.read_modbus_system_state c) as [[d|e] c']; [done|].
  by destruct H as [-> ->].
Qed.

(** The reader on a block in which nothing from 2509 on is applicable but
    the circulation pump (0) and the second generator (1): every field lies
    where the layout has it, and a status word equal to 32768 leaves no
    entry. *)
Lemma idle_block_decodes :
  entries wpm_system_state_keys
    (call WPM.read_modbus_system_state (wpm idle_block)).1
  = Ok ([Some (PyBool false); Some (PyBool false); Some (PyBool false);
         Some (PyBool false); Some (PyBool true); Some (PyBool false);
         Some (PyBool false); Some (PyBool false); Some (PyBool true);
         Some (PyBool false); Some (PyInt 5); Some (PyStr "no error")]
        ++ replicate 7 None
        ++ [Some (PyInt 0); Some (PyInt 1)] ++ replicate 29 None).
Proof. vm_compute. reflexivity. Qed.

(** C1 (a defect of the code): the WPM family reads a system-state block in
    which the pump of heating circuit 1 (register 2509) is applicable; the
    reader looks the key up in the result, where it was never stored, and
    raises [KeyError], and the cycle fails, where the claim has the field
    present and no exception. *)
Theorem heating_circuit_pump_key_error :
  pump_block !! 8%nat = Some 1 ∧
  call WPM.read_modbus_system_state (wpm pump_block)
    = (Raise (KeyError HEATING_CIRCUIT_1_PUMP),
       log_call wpm_system_state_request (wpm pump_block)) ∧
  (WPM._async_update_data (wpm pump_block)).1 = Raise UpdateFailed.
Proof. apply conj; [|apply conj]; vm_compute; reflexivity. Qed.

(** *** Scaled setpoints *)

(** Truncation towards zero stays within one unit, on the side of zero. *)
Lemma quot_within_one (q : Q) :
  let w := Z.quot (Qnum q) (Z.pos (Qden q)) in
  (Qabs (inject_Z w - q) < 1)%Q ∧ (Qabs (inject_Z w) <= Qabs q)%Q.
Proof.
  destruct q as [n d]. cbn [Qnum Qden]. cbv zeta.
  pose proof (Z.quot_rem' n (Z.pos d)) as Hqr.
  pose proof (Z.rem_bound_abs n (Z.pos d) ltac:(lia)) as Hb.
  pose proof (Z.quot_rem' (Z.abs n) (Z.abs (Z.pos d))) as Habs.
  rewrite Z.quot_abs, Z.rem_abs in Habs by lia.
  set (w := Z.quot n (Z.pos d)) in *. set (r := Z.rem n (Z.pos d)) in *.
  clearbody w r.
  split.
  - apply Qabs_Qlt_condition. unfold Qlt, Qminus, Qplus, Qopp, inject_Z. cbn.
    rewrite Pos.mul_1_l. lia.
  - unfold Qle, Qabs, inject_Z. cbn. lia.
Qed.

Lemma int_of_float_Q f :
  match int_of_float f with
  | Ok w => ∃ q, Q_of_float f = Some q ∧ w = Z.quot (Qnum q) (Z.pos (Qden q))
  | Raise _ => Q_of_float f = None
  end.
Proof.
  unfold int_of_float, Q_of_float. destruct (Prim2SF f); eauto.
Qed.

Lemma call_write_scaled key address scale value c :
  call (WPM.write_scaled address (NFloat value) scale;;
        data_setitem key (PyFloat value)) c =
  match int_of_float (value * float_of_Z scale) with
  | Ok word =>
      (Ok (), set_data_ (<[key := PyFloat value]> (data c))
                (log_call (WriteRegisters address (NInt word) 1) c))
  | Raise e => (Raise e, c)
  end.
Proof.
  unfold call, WPM.write_scaled, mbind, M_bind, lift_result, int_mul.
  by destruct (int_of_float _).
Qed.

Ltac decide_keys :=
  repeat first
    [ rewrite bool_decide_eq_false_2 by discriminate
    | rewrite bool_decide_eq_true_2 by reflexivity ].

Lemma set_data_scaled key address scale value c :
  (key, address, scale) ∈ scaled_write_map →
  call (WPM.set_data key (NFloat value)) c =
  call (WPM.write_scaled address (NFloat value) scale;;
        data_setitem key (PyFloat value)) c.
Proof.
  intros Hin. apply list_elem_of_In in Hin. cbn in Hin.
  repeat (destruct Hin as [[= <- <- <-]|Hin];
          [unfold WPM.set_data; decide_keys; reflexivity|]).
  done.
Qed.

(** C4, as the spec states it, fails: the word written is not the product
    rounded half away from zero.  Setting the comfort temperature of heating
    circuit 1 to 20.75 writes 207, where rounding gives 208. *)
Lemma set_data_does_not_round :
  ¬ (∀ key address scale value c word,
       (key, address, scale) ∈ scaled_write_map →
       encode_scaled value scale = Some word →
       calls (call (WPM.set_data key (NFloat value)) c).2
         = calls c ++ [WriteRegisters address (NInt word) 1]).
Proof.
  intros Hclaim.
  specialize (Hclaim COMFORT_TEMPERATURE_TARGET_HK1 1501 10 20.75%float
                (wpm idle_block) 208).
  assert (calls (call (WPM.set_data COMFORT_TEMPERATURE_TARGET_HK1
                         (NFloat 20.75)) (wpm idle_block)).2
          = [WriteRegisters 1501 (NInt 207) 1]) as Hcode
    by (vm_compute; reflexivity).
  rewrite Hcode in Hclaim.
  discriminate Hclaim; [constructor|vm_compute; reflexivity].
Qed.

(** C4, amended: for every writable scaled field, setting it to a float [v]
    writes [int(v * scale)], the product truncated towards zero, to the
    field's write address in exactly one write-registers call, and stores
    [v] itself under the field's key in the snapshot.  The word written is
    within one unit of the product [v * scale], on the side of zero.  When
    the product is not finite nothing is written and the exception of
    [int] is raised. *)
Theorem set_data_scaled_truncates key address scale value c :
  (key, address, scale) ∈ scaled_write_map →
  match int_of_float (value * float_of_Z scale) with
  | Ok word =>
      call (WPM.set_data key (NFloat value)) c
        = (Ok (), set_data_ (<[key := PyFloat value]> (data c))
                    (log_call (WriteRegisters address (NInt word) 1) c)) ∧
      ∃ q, Q_of_float (value * float_of_Z scale) = Some q ∧
           word = Z.quot (Qnum q) (Z.pos (Qden q)) ∧
           (Qabs (inject_Z word - q) < 1)%Q ∧
           (Qabs (inject_Z word) <= Qabs q)%Q
  | Raise e => call (WPM.set_data key (NFloat value)) c = (Raise e, c)
  end.
Proof.
  intros Hin. rewrite (set_data_scaled key address scale) by done.
  rewrite call_write_scaled.
  pose proof (int_of_float_Q (value * float_of_Z scale)) as HQ.
  destruct (int_of_float _) as [word|e]; [|done].
  destruct HQ as (q & Hq & ->). split; [done|]. exists q.
  split; [done|]. split; [done|]. apply quot_within_one.
Qed.

Lemma set_data_scaled_truncates_witness :
  call (WPM.set_data HEATING_CURVE_RISE_HK1 (NFloat 0.29)) (wpm idle_block)
    = (Ok (), set_data_ (<[HEATING_CURVE_RISE_HK1 := PyFloat 0.29]> ∅)
                (log_call (WriteRegisters 1503 (NInt 28) 1) (wpm idle_block))).
Proof.
  pose proof (set_data_scaled_truncates HEATING_CURVE_RISE_HK1 1503 100
                0.29%float (wpm idle_block)) as H.
  change (int_of_float (0.29 * float_of_Z 100)) with (Ok (A:=Z) 28) in H.
  apply H. apply list_elem_of_In. cbn. tauto.
Defined.

(** *** The shape of the values stored in the snapshot *)

Section keeps_rules.
Context (P : dict → Prop).

Lemma keeps_ret {A} (a : A) : keeps P (mret a).
Proof. by intros s HP. Qed.

Lemma keeps_bind {A B} (m : Method A) (f : A → Method B) :
  keeps P m → (∀ a, keeps P (f a)) → keeps P (m ≫= f).
Proof.
  intros Hm Hf s HP. apply wp_bind. eapply wp_mono; [by apply Hm| |done].
  intros a s' [HP' Hcl]. eapply wp_mono; [by apply Hf| |done].
  intros b s'' [HP'' Hcl']. split; [done|congruence].
Qed.

Lemma keeps_if {A} (b : bool) (m1 m2 : Method A) :
  keeps P m1 → keeps P m2 → keeps P (if b then m1 else m2).
Proof. by destruct b. Qed.

Lemma keeps_setitem key value :
  (∀ r, P r → P (<[key := value]> r)) → keeps P (setitem key value).
Proof. intros H s HP. apply wp_setitem. split; [by apply H|done]. Qed.

Lemma keeps_getitem key : keeps P (getitem key).
Proof. intros s HP. apply wp_getitem. by destruct (result s !! key). Qed.

Lemma keeps_fromRegisters regs : keeps P (fromRegisters regs).
Proof. intros s HP. by apply wp_fromRegisters_any. Qed.

Lemma keeps_decode_with unpack : keeps P (decode_with unpack).
Proof. intros s HP. by apply wp_decode_with_any. Qed.

Lemma keeps_skip_bytes n : keeps P (skip_bytes n).
Proof. by intros s HP. Qed.

Lemma keeps_assign_model m : keeps P (assign_model m).
Proof. by intros s HP. Qed.

Lemma keeps_read_input_registers slave address count :
  keeps P (read_input_registers slave address count).
Proof. by intros s HP. Qed.

Lemma keeps_read_holding_registers slave address count :
  keeps P (read_holding_registers slave address count).
Proof. by intros s HP. Qed.

Lemma keeps_truediv_bind {B} x n (f : pyval → Method B) :
  (∀ q, keeps P (f (PyFloat q))) → keeps P (truediv x n ≫= f).
Proof.
  intros Hf s HP. apply wp_bind. apply wp_truediv_any; [|done].
  intros q. by apply Hf.
Qed.

Lemma returns_return_result : returns P return_result.
Proof. by intros s HP. Qed.

Lemma returns_bind {A} (m : Method A) (f : A → Method dict) :
  keeps P m → (∀ a, returns P (f a)) → returns P (m ≫= f).
Proof.
  intros Hm Hf s HP. apply wp_bind. eapply wp_mono; [by apply Hm| |done].
  intros a s' [HP' Hcl]. eapply wp_mono; [by apply Hf| |done].
  intros b s'' [HP'' Hcl']. split; [done|congruence].
Qed.

(** A reader that keeps [P] from the empty dictionary on returns a
    dictionary with [P]. *)
Lemma returns_call (m : Method dict) c :
  P ∅ → returns P m →
  wp (call m) c (λ d c', P d ∧ _client c' = _client c) (λ _ _, True).
Proof. intros Hempty Hm. apply wp_call. by apply Hm. Qed.

End keeps_rules.

Lemma scalar_base_scaled v : scalar (Base.get_isg_scaled_value v) = true.
Proof. unfold Base.get_isg_scaled_value. by destruct (negb _). Qed.

Lemma scalar_wpm_scaled v factor : scalar (WPM.get_isg_scaled_value v factor) = true.
Proof. unfold WPM.get_isg_scaled_value. by destruct (negb _). Qed.

Lemma scalar_number n : scalar (pyval_of_number n) = true.
Proof. by destruct n. Qed.

Lemma scalar_if (b : bool) v1 v2 :
  scalar v1 = true → scalar v2 = true → scalar (if b then v1 else v2) = true.
Proof. by destruct b. Qed.

Create HintDb scalar.
#[local] Hint Resolve scalar_base_scaled scalar_wpm_scaled scalar_number
  scalar_if : scalar.

Ltac keeps_step side :=
  lazymatch goal with
  | |- returns _ (_ ≫= _) => apply returns_bind; [|intros ?]
  | |- returns _ return_result => apply returns_return_result
  | |- keeps _ (truediv _ _ ≫= _) => apply keeps_truediv_bind; intros ?
  | |- keeps _ (_ ≫= _) => apply keeps_bind; [|intros ?]
  | |- keeps _ (if _ then _ else _) => apply keeps_if
  | |- keeps _ (mret _) => apply keeps_ret
  | |- keeps _ (setitem _ _) => apply keeps_setitem; side
  | |- keeps _ (getitem _) => apply keeps_getitem
  | |- keeps _ (fromRegisters _) => apply keeps_fromRegisters
  | |- keeps _ decode_16bit_uint => apply keeps_decode_with
  | |- keeps _ decode_16bit_int => apply keeps_decode_with
  | |- keeps _ (skip_bytes _) => apply keeps_skip_bytes
  | |- keeps _ (assign_model _) => apply keeps_assign_model
  | |- keeps _ (read_input_registers _ _ _) => apply keeps_read_input_registers
  | |- keeps _ (read_holding_registers _ _ _) => apply keeps_read_holding_registers
  end.

Ltac scalar_side :=
  intros ? ?; apply map_Forall_insert_2; [|done];
  first [reflexivity | by auto with scalar].

Lemma base_readers_scalar average c :
  let Q := λ (d : dict) (c' : coordinator),
             map_Forall (λ _ v, scalar v = true) d ∧ _client c' = _client c in
  wp (call Base.read_modbus_energy) c Q (λ _ _, True) ∧
  wp (call (Base.read_modbus_system_state average)) c Q (λ _ _, True) ∧
  wp (call Base.read_modbus_system_values) c Q (λ _ _, True) ∧
  wp (call Base.read_modbus_system_paramter) c Q (λ _ _, True) ∧
  wp (call Base.read_modbus_sg_ready) c Q (λ _ _, True).
Proof.
  cbv zeta. repeat apply conj.
  all: apply returns_call; [apply map_Forall_empty|].
  all: unfold Base.read_modbus_energy, Base.read_modbus_system_state,
         Base.read_modbus_system_values, Base.read_modbus_system_paramter,
         Base.read_modbus_sg_ready.
  all: repeat keeps_step scalar_side.
Qed.

Lemma returns_call_read_input (P : dict → Prop) slave address count
    (f : response → Method dict) c :
  P ∅ → returns P (f (_client c (ReadInputRegisters address count slave))) →
  wp (call (read_input_registers slave address count ≫= f)) c
    (λ d c', P d ∧ _client c' = _client c) (λ _ _, True).
Proof.
  intros Hempty Hf. apply wp_call, wp_bind, wp_read_input_registers.
  by apply Hf.
Qed.

Lemma returns_call_read_holding (P : dict → Prop) slave address count
    (f : response → Method dict) c :
  P ∅ → returns P (f (_client c (ReadHoldingRegisters address count slave))) →
  wp (call (read_holding_registers slave address count ≫= f)) c
    (λ d c', P d ∧ _client c' = _client c) (λ _ _, True).
Proof.
  intros Hempty Hf. apply wp_call, wp_bind, wp_read_holding_registers.
  by apply Hf.
Qed.

Ltac stored_side Hcl :=
  intros ? ?; apply map_Forall_insert_2; [|done];
  first [ left; reflexivity
        | left; by auto with scalar
        | right; left; split; [reflexivity|]; by rewrite Hcl
        | right; right; split; [reflexivity|]; by rewrite Hcl ].

Lemma wpm_readers_stored_ok c0 c :
  _client c = _client c0 →
  let Q := λ (d : dict) (c' : coordinator),
             map_Forall (stored_ok c0) d ∧ _client c' = _client c in
  wp (call WPM.read_modbus_energy) c Q (λ _ _, True) ∧
  wp (call WPM.read_modbus_system_state) c Q (λ _ _, True) ∧
  wp (call WPM.read_modbus_system_values) c Q (λ _ _, True) ∧
  wp (call WPM.read_modbus_system_paramter) c Q (λ _ _, True) ∧
  wp (call WPM.read_modbus_sg_ready) c Q (λ _ _, True).
Proof.
  intros Hcl. cbv zeta. repeat apply conj.
  - apply returns_call; [apply map_Forall_empty|].
    unfold WPM.read_modbus_energy. repeat keeps_step ltac:(stored_side Hcl).
  - apply returns_call; [apply map_Forall_empty|].
    unfold WPM.read_modbus_system_state. repeat keeps_step ltac:(stored_side Hcl).
  - apply returns_call_read_input; [apply map_Forall_empty|].
    unfold wpm_system_values_request in *.
    repeat keeps_step ltac:(stored_side Hcl).
  - apply returns_call_read_holding; [apply map_Forall_empty|].
    unfold system_paramter_request in *.
    repeat keeps_step ltac:(stored_side Hcl).
  - apply returns_call; [apply map_Forall_empty|].
    unfold WPM.read_modbus_sg_ready, Base.read_modbus_sg_ready.
    repeat keeps_step ltac:(stored_side Hcl).
Qed.

Lemma map_Forall_merge (P : string → pyval → Prop) (a b : dict) :
  map_Forall P a → map_Forall P b → map_Forall P (dict_merge a b).
Proof.
  intros Ha Hb k v. unfold dict_merge.
  intros [Hk|[_ Hk]]%lookup_union_Some_raw; [by eapply Hb|by eapply Ha].
Qed.

Lemma wpm_cycle_stored_ok c :
  wp WPM.read_modbus_data c (λ d _, map_Forall (stored_ok c) d) (λ _ _, True).
Proof.
  unfold WPM.read_modbus_data.
  apply wp_bind.
  eapply wp_mono; [apply (wpm_readers_stored_ok c c eq_refl)| |done].
  intros de c1 [Hde Hc1]. apply wp_bind.
  eapply wp_mono; [apply (wpm_readers_stored_ok c c1 Hc1)| |done].
  intros ds c2 [Hds Hc2]. rewrite Hc1 in Hc2. apply wp_bind.
  eapply wp_mono; [apply (wpm_readers_stored_ok c c2 Hc2)| |done].
  intros dv c3 [Hdv Hc3]. rewrite Hc2 in Hc3. apply wp_bind.
  eapply wp_mono; [apply (wpm_readers_stored_ok c c3 Hc3)| |done].
  intros dp c4 [Hdp Hc4]. rewrite Hc3 in Hc4. apply wp_bind.
  eapply wp_mono; [apply (wpm_readers_stored_ok c c4 Hc4)| |done].
  intros dg c5 [Hdg Hc5]. apply wp_ret.
  by repeat apply map_Forall_merge.
Qed.

Lemma base_cycle_scalar average c :
  wp (Base.read_modbus_data average) c
    (λ d _, map_Forall (λ _ v, scalar v = true) d) (λ _ _, True).
Proof.
  unfold Base.read_modbus_data.
  apply wp_bind.
  eapply wp_mono; [apply (base_readers_scalar average c)| |done].
  intros de c1 [Hde _]. apply wp_bind.
  eapply wp_mono; [apply (base_readers_scalar average c1)| |done].
  intros ds c2 [Hds _]. apply wp_bind.
  eapply wp_mono; [apply (base_readers_scalar average c2)| |done].
  intros dv c3 [Hdv _]. apply wp_bind.
  eapply wp_mono; [apply (base_readers_scalar average c3)| |done].
  intros dp c4 [Hdp _]. apply wp_bind.
  eapply wp_mono; [apply (base_readers_scalar average c4)| |done].
  intros dg c5 [Hdg _]. apply wp_ret.
  by repeat apply map_Forall_merge.
Qed.

(** [set_data] stores nothing but the number it was given, under the key it
    was given. *)
Lemma set_data_stores key value c :
  let Q := λ (_ : unit) (c' : coordinator),
             data c' = data c ∨
             data c' = <[key := pyval_of_number value]> (data c) in
  wp (call (Base.set_data key value)) c Q (λ _ c', data c' = data c) ∧
  wp (call (WPM.set_data key value)) c Q (λ _ c', data c' = data c).
Proof.
  cbv zeta. split; apply wp_call.
  - unfold Base.set_data. repeat case_bool_decide; repeat wp_any; auto.
  - unfold WPM.set_data, WPM.write_scaled.
    repeat case_bool_decide;
      repeat first [wp_any | wp_binds; apply wp_lift_result; destruct (int_mul _ _)];
      auto.
Qed.

(** C8, as the spec states it, fails: a WPM cycle stores the list of the raw
    registers of the system-values block under the key "system_values". *)
Lemma snapshot_holds_register_lists :
  ¬ (∀ c d c' k v,
       WPM.read_modbus_data c = (Ok d, c') → d !! k = Some v → scalar v = true).
Proof.
  intros Hclaim.
  assert (match (WPM.read_modbus_data (wpm idle_block)).1 with
          | Ok d => d !! "system_values"
          | Raise _ => None
          end = Some (PyList (replicate 111 215))) as Hrun
    by (vm_compute; reflexivity).
  destruct (WPM.read_modbus_data (wpm idle_block)) as [[d|e] c'] eqn:Hcycle;
    [|discriminate Hrun].
  specialize (Hclaim _ _ _ _ _ Hcycle Hrun). clear Hcycle Hrun.
  discriminate Hclaim.
Qed.

(** C8, amended: every value a decode or set operation stores is a boolean,
    an integer, a float or the absent value, or a string, with one
    exception: the WPM readers of the system values and of the system
    parameters also store the list of the raw registers of their block,
    under the keys "system_values" and "system_paramaters".  So it is for
    the merged result of a WPM cycle; the merged result of a base cycle
    holds scalars only; and [set_data], in both families, changes the
    snapshot at most at the key it was given, where it stores the number it
    was given. *)
Theorem stored_values_scalar_or_raw_registers :
  (∀ c d c', WPM.read_modbus_data c = (Ok d, c') →
     ∀ k v, d !! k = Some v →
       scalar v = true ∨
       (k = "system_values" ∧
        v = PyList (registers (_client c wpm_system_values_request))) ∨
       (k = "system_paramaters" ∧
        v = PyList (registers (_client c system_paramter_request)))) ∧
  (∀ average c d c', Base.read_modbus_data average c = (Ok d, c') →
     ∀ k v, d !! k = Some v → scalar v = true) ∧
  (∀ key value c,
     let after_base := (call (Base.set_data key value) c).2 in
     let after_wpm := (call (WPM.set_data key value) c).2 in
     scalar (pyval_of_number value) = true ∧
     (data after_base = data c ∨
      data after_base = <[key := pyval_of_number value]> (data c)) ∧
     (data after_wpm = data c ∨
      data after_wpm = <[key := pyval_of_number value]> (data c))).
Proof.
  split; [|split].
  - intros c d c' Hrun k v Hk.
    pose proof (wp_run _ _ _ _ (wpm_cycle_stored_ok c)) as H.
    rewrite Hrun in H. by apply (H k v).
  - intros average c d c' Hrun k v Hk.
    pose proof (wp_run _ _ _ _ (base_cycle_scalar average c)) as H.
    rewrite Hrun in H. by apply (H k v).
  - intros key value c. cbv zeta. split; [apply scalar_number|].
    destruct (set_data_stores key value c) as [Hb Hw].
    apply wp_run in Hb, Hw.
    destruct (call (Base.set_data key value) c) as [[[]|eb] cb],
             (call (WPM.set_data key value) c) as [[[]|ew] cw]; cbn; auto.
Qed.

(** *** Exact decoding of whole blocks *)


(** Splits a register list that is long enough into its first registers. *)
Tactic Notation "first_registers" ident(regs) ident(Hlen) integer(n) :=
  do n (destruct regs as [|? regs]; [cbn in Hlen; lia|]).




(** *** The WPM system-state block *)



Lemma lookup_set_if (b : bool) key value (r : dict) k :
  set_if b key value r !! k =
  if decide (key = k) then (if b then Some value else r !! k) else r !! k.
Proof.
  unfold set_if. destruct b; destruct (decide (key = k)) as [->|Hne]; try done.
  - apply lookup_insert_eq.
  - by apply lookup_insert_ne.
Qed.

Lemma lookup_set_if_ne (b : bool) key value (r : dict) k :
  key ≠ k → set_if b key value r !! k = r !! k.
Proof. intros. rewrite lookup_set_if. by destruct (decide _). Qed.

Lemma lookup_set_if_eq (b : bool) key value (r : dict) :
  set_if b key value r !! key = if b then Some value else r !! key.
Proof. rewrite lookup_set_if. by destruct (decide _). Qed.

Ltac lookup_updates :=
  repeat first
    [ rewrite lookup_insert_eq
    | rewrite lookup_set_if_eq
    | rewrite lookup_insert_ne by discriminate
    | rewrite lookup_set_if_ne by discriminate
    | rewrite lookup_empty ].


Lemma apply_updates_lookup us k : apply_updates us !! k = lookup_updates us k.
Proof.
  induction us as [|[[b key] value] us IH]; [apply lookup_empty|].
  change (apply_updates ((b, key, value) :: us))
    with (set_if b key value (apply_updates us)).
  rewrite lookup_set_if, IH. cbn [lookup_updates].
  destruct (decide (key = k)) as [->|Hne].
  - rewrite bool_decide_eq_true_2 by done. by destruct b.
  - by rewrite bool_decide_eq_false_2.
Qed.

Ltac reify_dict r :=
  lazymatch r with
  | <[?k := ?v]> ?r' =>
      let us := reify_dict r' in constr:((true, k, v) :: us)
  | set_if ?b ?k ?v ?r' =>
      let us := reify_dict r' in constr:((b, k, v) :: us)
  | _ => constr:(@nil (bool * string * pyval))
  end.

(** Computes the entries of a dictionary built by a reader, leaving the
    decoded values as they are. *)
Ltac compute_entries :=
  lazymatch goal with
  | |- (λ k, ?r !! k) <$> ?keys = ?l =>
      let us := reify_dict r in
      change r with (apply_updates us);
      rewrite (list_fmap_ext _ (lookup_updates us) keys
                 (λ _ k _, apply_updates_lookup us k));
      lazy -[Z.testbit bit_set format_error Z.eqb negb int16 float_of_Z
             PrimFloat.mul PrimFloat.div
             Base.get_isg_scaled_value WPM.get_isg_scaled_value];
      reflexivity
  end.







(** *** The system-values block of the base family *)

Lemma int16_sentinel z : in_range z → int16 z = -32768 ↔ z = 32768.
Proof.
  unfold in_range, int16. intros Hz. destruct (z <? 32768) eqn:Hlt; lia.
Qed.

Lemma base_scaled_present z :
  in_range z → z ≠ 32768 →
  Base.get_isg_scaled_value (int16 z) = PyFloat (float_of_Z (int16 z) * 0.1).
Proof.
  intros Hz Hne. unfold Base.get_isg_scaled_value.
  destruct (int16 z =? -32768) eqn:Heq; [|done].
  apply Z.eqb_eq, int16_sentinel in Heq; done.
Qed.

Lemma wp_truediv_float f n s (Q : pyval → frame → Prop) (E : exn → frame → Prop) :
  Q (PyFloat (f / float_of_Z n)) s → wp (truediv (PyFloat f) n) s Q E.
Proof. done. Qed.





(** *** The parameter block of the WPM family *)



(** *** The system-values block of the WPM family *)



(** *** The SG Ready blocks and the controller model *)






(** *** A poll cycle only reads *)




Section polls_rules.


















End polls_rules.





(** *** Writes and the snapshot *)


(** *** Reading a setpoint and writing it back *)








(** *** A failed read within a cycle *)

Lemma wp_and {S A} (m : M S A) s (Q1 Q2 : A → S → Prop) (E1 E2 : exn → S → Prop) :
  wp m s Q1 E1 → wp m s Q2 E2 →
  wp m s (λ a s', Q1 a s' ∧ Q2 a s') (λ e s', E1 e s' ∧ E2 e s').
Proof. unfold wp. by destruct (m s) as [[a|e] s']. Qed.

(** The last tail of a list of registers that is known only in part. *)
Ltac tail_of regs :=
  lazymatch regs with
  | _ :: ?regs' => tail_of regs'
  | _ => regs
  end.

(** Before a register is decoded: the list is split until the register is
    there, or the list is known to end before it. *)
Ltac wp_grow :=
  lazymatch goal with
  | |- wp _ (Build_frame _ _ (Build_BinaryPayloadDecoder (payload_of ?regs) ?p)) _ _ =>
      let i := eval vm_compute in (Nat.div2 p) in
      let v := eval cbn in (regs !! i) in
      lazymatch v with
      | Some _ => fail
      | None => fail
      | _ => let t := tail_of regs in destruct t as [|? t]
      end
  end.

Ltac in_registers Hrange z :=
  apply (proj1 (Forall_forall _ _) Hrange z), list_elem_of_In;
  cbn [In]; repeat first [left; reflexivity | right].

(** One step over a reader whose block is not known to be long enough:
    what raises satisfies the trivial postcondition of exceptions. *)
Ltac wp_walk :=
  wp_binds;
  lazymatch goal with
  | |- True => exact I
  | |- wp decode_16bit_uint _ _ _ => repeat wp_grow; wp_at
  | |- wp decode_16bit_int _ _ _ => repeat wp_grow; wp_at
  | |- wp (if negb (isError (_client _ _)) then _ else _) _ _ _ => wp_response
  | |- wp (if _ =? _ then _ else _) _ _ _ =>
      lazymatch goal with |- wp (if ?b then _ else _) _ _ _ => destruct b end
  | Hrange : Forall in_range _
    |- wp (truediv (Base.get_isg_scaled_value (int16 ?z)) _) _ _ _ =>
      destruct (decide (z = 32768)) as [ -> | ? ];
      [ apply wp_truediv_None
      | rewrite (base_scaled_present z) by (first [done | in_registers Hrange z]);
        apply wp_truediv_float ]
  | |- _ => wp_at
  end;
  lazymatch goal with
  | |- True => exact I
  | |- _ => idtac
  end.

Lemma read_modbus_energy_values c :
  wp (call Base.read_modbus_energy) c
    (λ d _, ∀ regs, _client c energy_request = ReadRegistersResponse regs →
              (λ k, d !! k) <$> energy_keys = energy_decoded regs)
    (λ _ _, True).
Proof.
  apply wp_call. unfold Base.read_modbus_energy, energy_request.
  repeat wp_walk.
  - intros ? [= <-]. unfold energy_keys, energy_decoded, word.
    cbn [fmap list_fmap]. lookup_inserts. reflexivity.
  - intros ? [=].
Qed.

Lemma read_modbus_system_state_values average c :
  wp (call (Base.read_modbus_system_state average)) c
    (λ d _, ∀ regs, _client c system_state_request = ReadRegistersResponse regs →
              (λ k, d !! k) <$> system_state_keys = system_state_decoded average regs)
    (λ _ _, True).
Proof.
  apply wp_call. unfold Base.read_modbus_system_state, system_state_request.
  repeat wp_walk.
  - intros ? [= <-]. unfold system_state_keys, system_state_decoded, word, consumed_power.
    cbn [fmap list_fmap]. lookup_inserts. cbn [lookup list_lookup default].
    rewrite !bit_set_testbit by done. by rewrite (orb_comm (Z.testbit _ 5)).
  - intros ? [=].
Qed.

Lemma read_modbus_system_values_values c :
  wp (call Base.read_modbus_system_values) c
    (λ d _, ∀ regs, _client c system_values_request = ReadRegistersResponse regs →
              (λ k, d !! k) <$> system_values_keys = base_system_values_decoded regs)
    (λ _ _, True).
Proof.
  apply wp_call. unfold Base.read_modbus_system_values, system_values_request.
  repeat wp_walk.
  - intros ? [= <-]. compute_entries.
  - intros ? [=].
Qed.

Lemma read_modbus_system_paramter_values c :
  wp (call Base.read_modbus_system_paramter) c
    (λ d _, ∀ regs, _client c system_paramter_request = ReadRegistersResponse regs →
              (λ k, d !! k) <$> system_paramter_keys = system_paramter_decoded regs)
    (λ _ _, True).
Proof.
  apply wp_call. unfold Base.read_modbus_system_paramter, system_paramter_request.
  repeat wp_walk.
  - intros ? [= <-]. unfold system_paramter_keys, system_paramter_decoded, word.
    cbn [fmap list_fmap]. lookup_inserts. reflexivity.
  - intros ? [=].
Qed.

Lemma read_modbus_sg_ready_values c :
  wp (call Base.read_modbus_sg_ready) c
    (λ d _,
       (∀ regs, _client c sg_ready_request = ReadRegistersResponse regs →
          (λ k, d !! k) <$> sg_ready_keys = sg_ready_decoded regs) ∧
       (∀ regs, _client c sg_ready_holding_request = ReadRegistersResponse regs →
          (λ k, d !! k) <$> sg_ready_holding_keys = sg_ready_holding_decoded regs))
    (λ _ _, True).
Proof.
  apply wp_call.
  unfold Base.read_modbus_sg_ready, sg_ready_request, sg_ready_holding_request.
  repeat wp_walk.
  all: split; intros ? [=]; subst.
  all: unfold sg_ready_keys, sg_ready_holding_keys, sg_ready_decoded,
         sg_ready_holding_decoded, word.
  all: cbn [fmap list_fmap]; lookup_inserts; reflexivity.
Qed.

(** A key of one block is not in what the reader of another block returns. *)
Lemma block_lookup_None (d : dict) (b : bool) i j bi bj k :
  cycle_blocks !! i = Some bi → cycle_blocks !! j = Some bj → i ≠ j →
  dom d = (if b then ∅ else list_to_set bj.2) → k ∈ bi.2 → d !! k = None.
Proof.
  intros Hi Hj Hne Hdom Hk. apply not_elem_of_dom. rewrite Hdom.
  destruct b; [apply not_elem_of_empty|].
  rewrite elem_of_list_to_set. by eapply (cycle_keys_disjoint i j).
Qed.

Lemma sg_ready_lookup_None (d : dict) (b b' : bool) i bi k :
  cycle_blocks !! i = Some bi → (i < 4)%nat →
  dom d = (if b then ∅ else list_to_set sg_ready_holding_keys) ∪
          (if b' then ∅ else list_to_set sg_ready_keys) →
  k ∈ bi.2 → d !! k = None.
Proof.
  intros Hi Hlt Hdom Hk. apply not_elem_of_dom. rewrite Hdom.
  apply not_elem_of_union. split.
  - destruct b; [apply not_elem_of_empty|]. rewrite elem_of_list_to_set.
    apply (cycle_keys_disjoint i 5 bi (sg_ready_holding_request, sg_ready_holding_keys));
      [done|done|lia|done].
  - destruct b'; [apply not_elem_of_empty|]. rewrite elem_of_list_to_set.
    apply (cycle_keys_disjoint i 4 bi (sg_ready_request, sg_ready_keys));
      [done|done|lia|done].
Qed.

(** The cycle that returns holds, for every answered block, the values
    decoded from the registers of the block. *)
Lemma read_modbus_data_values average c :
  wp (Base.read_modbus_data average) c
    (λ d _, ∀ req keys decode regs,
       (req, keys, decode) ∈ cycle_decoders average →
       _client c req = ReadRegistersResponse regs →
       (λ k, d !! k) <$> keys = decode regs)
    (λ _ _, True).
Proof.
  unfold Base.read_modbus_data.
  apply wp_bind. eapply wp_mono;
    [apply (wp_and _ _ _ _ _ _ (read_modbus_energy_spec c)
              (read_modbus_energy_values c))| |done].
  cbv beta. intros de c1 [[-> Hde] Hve].
  apply wp_bind. eapply wp_mono;
    [apply (wp_and _ _ _ _ _ _ (read_modbus_system_state_spec average _)
              (read_modbus_system_state_values average _))| |done].
  cbv beta. intros ds c2 [[[-> Hds] _] Hvs].
  apply wp_bind. eapply wp_mono;
    [apply (wp_and _ _ _ _ _ _ (read_modbus_system_values_spec _)
              (read_modbus_system_values_values _))| |done].
  cbv beta. intros dv c3 [[[-> Hdv] _] Hvv].
  apply wp_bind. eapply wp_mono;
    [apply (wp_and _ _ _ _ _ _ (read_modbus_system_paramter_spec _)
              (read_modbus_system_paramter_values _))| |done].
  cbv beta. intros dp c4 [[-> Hdp] Hvp].
  apply wp_bind. eapply wp_mono;
    [apply (wp_and _ _ _ _ _ _ (read_modbus_sg_ready_spec _)
              (read_modbus_sg_ready_values _))| |done].
  cbv beta. intros dg c5 [(_ & _ & _ & Hdg) [Hvg Hvh]].
  cbn [_client log_call] in *. apply wp_ret.
  intros req keys decode regs Hin Hresp.
  apply list_elem_of_In in Hin. cbn [In cycle_decoders] in Hin.
  unfold dict_merge.
  destruct Hin as [[= <- <- <-]|[[= <- <- <-]|[[= <- <- <-]|[[= <- <- <-]
                  |[[= <- <- <-]|[[= <- <- <-]|[]]]]]]].
  - rewrite <- (Hve regs Hresp). apply list_fmap_ext. intros n k Hk.
    apply list_elem_of_lookup_2 in Hk.
    rewrite (lookup_union_r dg)
      by exact (sg_ready_lookup_None dg _ _ 0 (energy_request, energy_keys) k
                  eq_refl ltac:(lia) Hdg Hk).
    rewrite (lookup_union_r dp)
      by exact (block_lookup_None dp _ 0 3 (energy_request, energy_keys)
                  (system_paramter_request, system_paramter_keys) k
                  eq_refl eq_refl ltac:(lia) Hdp Hk).
    rewrite (lookup_union_r dv)
      by exact (block_lookup_None dv _ 0 2 (energy_request, energy_keys)
                  (system_values_request, system_values_keys) k
                  eq_refl eq_refl ltac:(lia) Hdv Hk).
    apply lookup_union_r.
    exact (block_lookup_None ds _ 0 1 (energy_request, energy_keys)
             (system_state_request, system_state_keys) k
             eq_refl eq_refl ltac:(lia) Hds Hk).
  - rewrite <- (Hvs regs Hresp). apply list_fmap_ext. intros n k Hk.
    apply list_elem_of_lookup_2 in Hk.
    rewrite (lookup_union_r dg)
      by exact (sg_ready_lookup_None dg _ _ 1 (system_state_request, system_state_keys) k
                  eq_refl ltac:(lia) Hdg Hk).
    rewrite (lookup_union_r dp)
      by exact (block_lookup_None dp _ 1 3 (system_state_request, system_state_keys)
                  (system_paramter_request, system_paramter_keys) k
                  eq_refl eq_refl ltac:(lia) Hdp Hk).
    rewrite (lookup_union_r dv)
      by exact (block_lookup_None dv _ 1 2 (system_state_request, system_state_keys)
                  (system_values_request, system_values_keys) k
                  eq_refl eq_refl ltac:(lia) Hdv Hk).
    apply lookup_union_l.
    exact (block_lookup_None de _ 1 0 (system_state_request, system_state_keys)
             (energy_request, energy_keys) k
             eq_refl eq_refl ltac:(lia) Hde Hk).
  - rewrite <- (Hvv regs Hresp). apply list_fmap_ext. intros n k Hk.
    apply list_elem_of_lookup_2 in Hk.
    rewrite (lookup_union_r dg)
      by exact (sg_ready_lookup_None dg _ _ 2 (system_values_request, system_values_keys) k
                  eq_refl ltac:(lia) Hdg Hk).
    rewrite (lookup_union_r dp)
      by exact (block_lookup_None dp _ 2 3 (system_values_request, system_values_keys)
                  (system_paramter_request, system_paramter_keys) k
                  eq_refl eq_refl ltac:(lia) Hdp Hk).
    apply lookup_union_l. apply lookup_union_None_2.
    + exact (block_lookup_None ds _ 2 1 (system_values_request, system_values_keys)
               (system_state_request, system_state_keys) k
               eq_refl eq_refl ltac:(lia) Hds Hk).
    + exact (block_lookup_None de _ 2 0 (system_values_request, system_values_keys)
               (energy_request, energy_keys) k
               eq_refl eq_refl ltac:(lia) Hde Hk).
  - rewrite <- (Hvp regs Hresp). apply list_fmap_ext. intros n k Hk.
    apply list_elem_of_lookup_2 in Hk.
    rewrite (lookup_union_r dg)
      by exact (sg_ready_lookup_None dg _ _ 3
                  (system_paramter_request, system_paramter_keys) k
                  eq_refl ltac:(lia) Hdg Hk).
    apply lookup_union_l. apply lookup_union_None_2; [|apply lookup_union_None_2].
    + exact (block_lookup_None dv _ 3 2 (system_paramter_request, system_paramter_keys)
               (system_values_request, system_values_keys) k
               eq_refl eq_refl ltac:(lia) Hdv Hk).
    + exact (block_lookup_None ds _ 3 1 (system_paramter_request, system_paramter_keys)
               (system_state_request, system_state_keys) k
               eq_refl eq_refl ltac:(lia) Hds Hk).
    + exact (block_lookup_None de _ 3 0 (system_paramter_request, system_paramter_keys)
               (energy_request, energy_keys) k
               eq_refl eq_refl ltac:(lia) Hde Hk).
  - rewrite <- (Hvg regs Hresp). apply list_fmap_ext. intros n k Hk.
    apply list_elem_of_lookup_2 in Hk.
    apply lookup_union_l. repeat apply lookup_union_None_2.
    + exact (block_lookup_None dp _ 4 3 (sg_ready_request, sg_ready_keys)
               (system_paramter_request, system_paramter_keys) k
               eq_refl eq_refl ltac:(lia) Hdp Hk).
    + exact (block_lookup_None dv _ 4 2 (sg_ready_request, sg_ready_keys)
               (system_values_request, system_values_keys) k
               eq_refl eq_refl ltac:(lia) Hdv Hk).
    + exact (block_lookup_None ds _ 4 1 (sg_ready_request, sg_ready_keys)
               (system_state_request, system_state_keys) k
               eq_refl eq_refl ltac:(lia) Hds Hk).
    + exact (block_lookup_None de _ 4 0 (sg_ready_request, sg_ready_keys)
               (energy_request, energy_keys) k
               eq_refl eq_refl ltac:(lia) Hde Hk).
  - rewrite <- (Hvh regs Hresp). apply list_fmap_ext. intros n k Hk.
    apply list_elem_of_lookup_2 in Hk.
    apply lookup_union_l. repeat apply lookup_union_None_2.
    + exact (block_lookup_None dp _ 5 3 (sg_ready_holding_request, sg_ready_holding_keys)
               (system_paramter_request, system_paramter_keys) k
               eq_refl eq_refl ltac:(lia) Hdp Hk).
    + exact (block_lookup_None dv _ 5 2 (sg_ready_holding_request, sg_ready_holding_keys)
               (system_values_request, system_values_keys) k
               eq_refl eq_refl ltac:(lia) Hdv Hk).
    + exact (block_lookup_None ds _ 5 1 (sg_ready_holding_request, sg_ready_holding_keys)
               (system_state_request, system_state_keys) k
               eq_refl eq_refl ltac:(lia) Hds Hk).
    + exact (block_lookup_None de _ 5 0 (sg_ready_holding_request, sg_ready_holding_keys)
               (energy_request, energy_keys) k
               eq_refl eq_refl ltac:(lia) Hde Hk).
Qed.

(** Both cycles are [read_modbus_data_of] at the readers of their class. *)
Lemma read_modbus_data_readers average :
  Base.read_modbus_data average
    = read_modbus_data_of
        (call Base.read_modbus_energy)
        (call (Base.read_modbus_system_state average))
        (call Base.read_modbus_system_values)
        (call Base.read_modbus_system_paramter)
        (call Base.read_modbus_sg_ready) ∧
  WPM.read_modbus_data
    = read_modbus_data_of
        (call WPM.read_modbus_energy) (call WPM.read_modbus_system_state)
        (call WPM.read_modbus_system_values)
        (call WPM.read_modbus_system_paramter) (call WPM.read_modbus_sg_ready).
Proof. done. Qed.

(** An exception out of a reader leaves the cycle at once. *)
Lemma cycle_stops_at_first_raise (r1 r2 r3 r4 r5 : Coord dict) c e c' :
  first_raise [r1; r2; r3; r4; r5] c = Some (e, c') →
  read_modbus_data_of r1 r2 r3 r4 r5 c = (Raise e, c').
Proof.
  unfold read_modbus_data_of, mbind, M_bind. cbn [first_raise].
  destruct (r1 c) as [[d1|e1] c1]; [|by intros [= -> ->]].
  destruct (r2 c1) as [[d2|e2] c2]; [|by intros [= -> ->]].
  destruct (r3 c2) as [[d3|e3] c3]; [|by intros [= -> ->]].
  destruct (r4 c3) as [[d4|e4] c4]; [|by intros [= -> ->]].
  destruct (r5 c4) as [[d5|e5] c5]; [|by intros [= -> ->]].
  done.
Qed.

(** C5, as the spec states it, fails: a failed read does not keep the rest
    of the cycle going.  On a device whose energy block cannot be read and
    whose pressure register 520 holds the sentinel, the cycle raises
    [TypeError] out of the system-values reader after three of the six
    reads; the parameter block and the two SG Ready blocks are not read. *)
Lemma failed_read_does_not_keep_cycle_going :
  ¬ (∀ average c req keys,
       (req, keys) ∈ cycle_blocks →
       isError (_client c req) = true →
       ∃ d c', Base.read_modbus_data average c = (Ok d, c') ∧
               (∀ k, k ∈ keys → d !! k = None) ∧
               calls c' = calls c ++ cycle_requests).
Proof.
  intros Hclaim.
  destruct (Hclaim (NInt 2500) pressure_absent energy_request energy_keys)
    as (d & c' & Hcycle & _); [constructor|reflexivity|].
  assert ((Base.read_modbus_data (NInt 2500) pressure_absent).1 = Raise TypeError)
    as Hrun by (vm_compute; reflexivity).
  rewrite Hcycle in Hrun. discriminate Hrun.
Qed.

(** C5, amended: a read answered by an error response contributes nothing
    and raises nothing, but the cycle goes on only while no reader raises.
    When the cycle returns, no key of the failed block is in the merged
    result, all six reads were issued in order, and the keys of every
    answered block hold the values decoded from the registers of that
    block.  When the cycle raises, it does so right after the read of
    another block, one that was answered, the blocks after it are not read,
    and the update fails with [UpdateFailed].  The same holds of any
    exception out of a reader, one raised by the transport included: the
    cycle, over whatever readers, stops at the first that raises. *)
Theorem failed_read_is_local_while_no_reader_raises average c req keys :
  (req, keys) ∈ cycle_blocks →
  isError (_client c req) = true →
  match Base.read_modbus_data average c with
  | (Ok d, c') =>
      (∀ k, k ∈ keys → d !! k = None) ∧
      calls c' = calls c ++ cycle_requests ∧
      (∀ req' keys' decode regs,
         (req', keys', decode) ∈ cycle_decoders average →
         _client c req' = ReadRegistersResponse regs →
         (λ k, d !! k) <$> keys' = decode regs)
  | (Raise e, c') =>
      (∃ n req', cycle_requests !! n = Some req' ∧ req' ≠ req ∧
         calls c' = calls c ++ take (S n) cycle_requests ∧
         isError (_client c req') = false) ∧
      Base._async_update_data average c = (Raise UpdateFailed, c')
  end ∧
  (∀ (r1 r2 r3 r4 r5 : Coord dict) e c',
     first_raise [r1; r2; r3; r4; r5] c = Some (e, c') →
     read_modbus_data_of r1 r2 r3 r4 r5 c = (Raise e, c')).
Proof.
  intros Hin Herr. split; [|intros; by apply cycle_stops_at_first_raise].
  pose proof (wp_run _ _ _ _ (read_modbus_data_spec average c)) as H.
  pose proof (wp_run _ _ _ _ (read_modbus_data_values average c)) as Hvalues.
  unfold Base._async_update_data.
  destruct (Base.read_modbus_data average c) as [[d|e] c'].
  - destruct H as ((_ & _ & Hcalls & Hdom) & _). split; [|split; [done|done]].
    intros k Hk. pose proof (lookup_cycle_block c d req keys k Hdom Hin Hk) as H.
    by rewrite Herr in H.
  - split; [|done]. destruct H as (_ & _ & n & req' & Hn & Hcalls & Hok).
    exists n, req'. repeat split; try done. intros ->. congruence.
Qed.

Lemma failed_read_is_local_while_no_reader_raises_witness :
  match Base.read_modbus_data (NInt 2500) energy_down with
  | (Ok d, c') =>
      (∀ k, k ∈ energy_keys → d !! k = None) ∧
      calls c' = calls energy_down ++ cycle_requests ∧
      (∀ req' keys' decode regs,
         (req', keys', decode) ∈ cycle_decoders (NInt 2500) →
         _client energy_down req' = ReadRegistersResponse regs →
         (λ k, d !! k) <$> keys' = decode regs)
  | (Raise e, c') =>
      (∃ n req', cycle_requests !! n = Some req' ∧ req' ≠ energy_request ∧
         calls c' = calls energy_down ++ take (S n) cycle_requests ∧
         isError (_client energy_down req') = false) ∧
      Base._async_update_data (NInt 2500) energy_down = (Raise UpdateFailed, c')
  end ∧
  (∀ (r1 r2 r3 r4 r5 : Coord dict) e c',
     first_raise [r1; r2; r3; r4; r5] energy_down = Some (e, c') →
     read_modbus_data_of r1 r2 r3 r4 r5 energy_down = (Raise e, c')).
Proof.
  apply (failed_read_is_local_while_no_reader_raises
           (NInt 2500) energy_down energy_request energy_keys).
  - constructor.
  - reflexivity.
Defined.

(** A transport that raises on the energy read, whatever the exception:
    the cycle raises it after that one request, and no other block is read. *)
Lemma raising_transport_aborts_cycle average e c :
  read_modbus_data_of
    (transport_raises energy_request e)
    (call (Base.read_modbus_system_state average))
    (call Base.read_modbus_system_values)
    (call Base.read_modbus_system_paramter)
    (call Base.read_modbus_sg_ready) c
  = (Raise e, log_call energy_request c).
Proof. by apply cycle_stops_at_first_raise. Qed.
